(** * Risk analyzer bot: the fallback scorer, the spreadsheet extractor and
    the request seed, embedded from the Python sources

  - [processors/risk_calculator.py]: [calculate_risk_score],
    [score_to_risk_level], [calculate_risk_fallback];
  - [processors/excel_reader.py]: [find_cell_by_text],
    [extract_value_near_cell], [extract_project_data];
  - [processors/ai_client.py]: the seed computed by [analyze_risks], the
    handling of the reply and of the exceptions in [analyze_risks], and
    [analyze_risks_with_fallback];
  - [handlers/file_handler.py]: the two dictionaries that [handle_document]
    hands to the analysis, and the cut of its long message.

  Numbers.  A Python number (an [int], or a finite [float]) is a rational
  [Q]; arithmetic and comparisons are exact, and a decimal literal such as
  [1.1] is the decimal that it spells.  The rounding of binary floating
  point, integers beyond the range of floats and the non-finite floats
  ([inf], [nan]) are not part of the model.

  Failure.  A Python exception is [None] of an [option], or the constructor
  of a result type that carries the message. *)

From Stdlib Require Import ZArith QArith Qround Lqa Lia Ascii String.
From stdpp Require Import base option list strings pretty gmap.

(** ** Python numbers *)

Module Num.

Definition ltb (x y : Q) : bool := negb (Qle_bool y x).
Definition leb (x y : Q) : bool := Qle_bool x y.
Definition gtb (x y : Q) : bool := ltb y x.
Definition eqb (x y : Q) : bool := Qeq_bool x y.

End Num.

Declare Scope num_scope.
Delimit Scope num_scope with num.
Infix "<?" := Num.ltb (at level 70, no associativity) : num_scope.
Infix "<=?" := Num.leb (at level 70, no associativity) : num_scope.
Infix ">?" := Num.gtb (at level 70, no associativity) : num_scope.
Infix "=?" := Num.eqb (at level 70, no associativity) : num_scope.

(** ** Python values *)

(** Values held by the dictionaries that the functions exchange.  The
    entries of a project map are numbers and strings; lists and [None] occur
    in the risk analysis. *)
#[warnings="-register-all"]
Inductive pyval : Type :=
| PNone
| PNum (q : Q)
| PStr (s : string)
| PList (l : list pyval).

(** ** processors/risk_calculator.py *)

Module RiskCalculator.

(** The four literals ["Низкий"], ["Средний"], ["Высокий"],
    ["Критический"] of the return type of [score_to_risk_level]. *)
Inductive RiskLevel : Set := Low | Medium | High | Critical.

Definition level_text (l : RiskLevel) : string :=
  match l with
  | Low => "Низкий"
  | Medium => "Средний"
  | High => "Высокий"
  | Critical => "Критический"
  end.

(** [risk_score] starts at 0 and each [if]/[elif] pair adds to it. *)
Definition calculate_risk_score
    (npv irr payback_period debt_share debt_rate construction_years
     discount_rate : Q) : Z :=
  let risk_score := 0%Z in
  let risk_score :=
    if (npv <? 0)%num then (risk_score + 40)%Z
    else if (npv <? 50)%num then (risk_score + 20)%Z
    else risk_score in
  let risk_score :=
    if (irr <? discount_rate)%num then (risk_score + 30)%Z
    else if (irr <? discount_rate * 1.1)%num then (risk_score + 15)%Z
    else risk_score in
  let risk_score :=
    if (payback_period >? 15)%num then (risk_score + 30)%Z
    else if (payback_period >? 10)%num then (risk_score + 20)%Z
    else risk_score in
  let risk_score :=
    if (debt_share >? 70)%num then (risk_score + 35)%Z
    else if (debt_share >? 50)%num then (risk_score + 25)%Z
    else risk_score in
  let risk_score :=
    if (debt_rate >? 20)%num then (risk_score + 30)%Z
    else if (debt_rate >? 15)%num then (risk_score + 20)%Z
    else risk_score in
  let risk_score :=
    if (construction_years >? 7)%num then (risk_score + 25)%Z
    else if (construction_years >? 5)%num then (risk_score + 15)%Z
    else risk_score in
  let risk_score :=
    if (discount_rate >? 25)%num then (risk_score + 20)%Z
    else if (discount_rate >? 20)%num then (risk_score + 10)%Z
    else risk_score in
  Z.min 100 risk_score.

Definition score_to_risk_level (risk_score : Z) : RiskLevel :=
  if (risk_score <=? 30)%Z then Low
  else if (risk_score <=? 60)%Z then Medium
  else if (risk_score <=? 85)%Z then High
  else Critical.

(** [project_data.get(key, 0)] where the callee compares the value with a
    number.  An entry that is not a number makes that comparison raise
    [TypeError], which nothing in this module catches: [None]. *)
Definition get_number (project_data : gmap string pyval) (key : string)
  : option Q :=
  match project_data !! key with
  | None => Some 0%Q
  | Some (PNum q) => Some q
  | Some _ => None
  end.

Definition reason_text (risk_level : RiskLevel) : string :=
  match risk_level with
  | Low =>
      "Проект демонстрирует хорошие финансовые показатели и низкий уровень рисков."
  | Medium =>
      "Проект имеет приемлемый уровень рисков, но требует внимательного мониторинга ключевых параметров."
  | High =>
      "Проект характеризуется высоким уровнем рисков, необходимы меры по их снижению."
  | Critical =>
      "Проект имеет критический уровень рисков, требует пересмотра параметров или отказа от реализации."
  end.

Definition calculate_risk_fallback (project_data : gmap string pyval)
  : option (gmap string pyval) :=
  npv ← get_number project_data "npv";
  irr ← get_number project_data "irr";
  payback_period ← get_number project_data "payback_period";
  debt_share ← get_number project_data "debt_share";
  debt_rate ← get_number project_data "debt_rate";
  construction_years ← get_number project_data "construction_years";
  discount_rate ← get_number project_data "discount_rate";
  let risk_score :=
    calculate_risk_score npv irr payback_period debt_share debt_rate
      construction_years discount_rate in
  let risk_level := score_to_risk_level risk_score in
  let reason := reason_text risk_level in
  let critical_factors : list string := [] in
  let critical_factors :=
    if (npv <? 0)%num
    then critical_factors ++ ["Отрицательный NPV"] else critical_factors in
  let critical_factors :=
    if (irr <? discount_rate)%num
    then critical_factors ++ ["IRR ниже ставки дисконтирования"]
    else critical_factors in
  let critical_factors :=
    if (debt_share >? 50)%num
    then critical_factors ++ ["Высокая доля долга"] else critical_factors in
  let critical_factors :=
    if (payback_period >? 10)%num
    then critical_factors ++ ["Долгий срок окупаемости"]
    else critical_factors in
  Some (<["risk_level" := PStr (level_text risk_level)]>
       (<["reason" := PStr reason]>
       (<["critical_factors" :=
            PList (PStr <$> (match critical_factors with
                             | [] => ["Требуется детальный анализ"]
                             | _ => critical_factors
                             end))]>
       (<["scenarios" := PList []]>
       (<["total_potential_losses" := PNum 0]>
       (<["risk_mitigation" := PList []]> ∅)))))).


End RiskCalculator.

(** *** The rule table of the scorer, as the specification words it *)

Module RuleTable.

Record inputs : Type := Inputs {
  npv : Q; irr : Q; payback : Q; debtShare : Q; debtRate : Q;
  constructionYears : Q; discountRate : Q }.

(** A row: the condition, evaluated on the inputs, and its points. *)
Definition row : Type := (bool * Z)%type.

Definition financial_rows (i : inputs) : list row :=
  [ ((npv i <? 0)%num, 40%Z);
    ((0 <=? npv i)%num && (npv i <? 50)%num, 20%Z);
    ((irr i <? discountRate i)%num, 30%Z);
    ((discountRate i <=? irr i)%num && (irr i <? 1.1 * discountRate i)%num,
     15%Z);
    ((payback i >? 15)%num, 30%Z);
    ((payback i >? 10)%num && (payback i <=? 15)%num, 20%Z) ].

Definition debt_rows (i : inputs) : list row :=
  [ ((debtShare i >? 70)%num, 35%Z);
    ((debtShare i >? 50)%num && (debtShare i <=? 70)%num, 25%Z);
    ((debtRate i >? 20)%num, 30%Z);
    ((debtRate i >? 15)%num && (debtRate i <=? 20)%num, 20%Z) ].

Definition time_rows (i : inputs) : list row :=
  [ ((constructionYears i >? 7)%num, 25%Z);
    ((constructionYears i >? 5)%num && (constructionYears i <=? 7)%num,
     15%Z) ].

Definition discount_rows (i : inputs) : list row :=
  [ ((discountRate i >? 25)%num, 20%Z);
    ((discountRate i >? 20)%num && (discountRate i <=? 25)%num, 10%Z) ].

Definition rule_table (i : inputs) : list row :=
  financial_rows i ++ debt_rows i ++ time_rows i ++ discount_rows i.

(** The points of the rows whose condition holds, added up. *)
Definition points (rows : list row) : Z :=
  foldr (fun (r : row) acc => if r.1 then (r.2 + acc)%Z else acc) 0%Z rows.

Definition score (i : inputs) : Z := Z.min 100 (points (rule_table i)).


End RuleTable.

(** ** Python text

    A [str] is the string of its UTF-8 bytes.  The pieces of the builtins
    that the sources use on the Latin digits and signs are defined here;
    [\d] and [float] are read on the ASCII digits, and white space is the
    ASCII white space. *)

Module PyStr.

Definition chars (s : string) : list ascii := list_ascii_of_string s.
Definition text (cs : list ascii) : string := string_of_list_ascii cs.

Definition is_digit (c : ascii) : bool :=
  let n := nat_of_ascii c in (48 <=? n)%nat && (n <=? 57)%nat.

Definition digit_value (c : ascii) : Z := (Z.of_nat (nat_of_ascii c) - 48)%Z.

Definition is_space (c : ascii) : bool :=
  let n := nat_of_ascii c in
  ((9 <=? n)%nat && (n <=? 13)%nat) || ((28 <=? n)%nat && (n <=? 32)%nat).

(** [s.replace(a, b)] for one-character [a] and [b]. *)
Definition replace_char (a b : ascii) (cs : list ascii) : list ascii :=
  (fun c => if Ascii.eqb c a then b else c) <$> cs.

(** [s.replace(a, '')] for a one-character [a]. *)
Definition remove_char (a : ascii) (cs : list ascii) : list ascii :=
  List.filter (fun c => negb (Ascii.eqb c a)) cs.

(** [needle in hay]. *)
Fixpoint starts_with (needle hay : list ascii) : bool :=
  match needle, hay with
  | [], _ => true
  | _ :: _, [] => false
  | a :: needle', b :: hay' => Ascii.eqb a b && starts_with needle' hay'
  end.

Fixpoint occurs_in (needle hay : list ascii) : bool :=
  starts_with needle hay ||
  match hay with
  | [] => false
  | _ :: hay' => occurs_in needle hay'
  end.

Definition contains (needle hay : string) : bool :=
  occurs_in (chars needle) (chars hay).

(** [len(s)]: the code points, that is the bytes that do not continue a
    UTF-8 sequence (the bytes outside 0x80..0xBF). *)
Definition len (s : string) : Z :=
  Z.of_nat (length (List.filter
    (fun c => let n := nat_of_ascii c in negb ((128 <=? n)%nat && (n <=? 191)%nat))
    (chars s))).

(** The longest run of digits at the head, and what follows it. *)
Fixpoint span_digits (cs : list ascii) : list ascii * list ascii :=
  match cs with
  | c :: cs' =>
      if is_digit c
      then let '(ds, rest) := span_digits cs' in (c :: ds, rest)
      else ([], cs)
  | [] => ([], [])
  end.

(** *** The patterns [-?\d+\.?\d*] and [\d+\.?\d*] *)

(** [\d+\.?\d*] at the head of [cs]; every part is greedy and what follows
    [\d+] may match the empty string, so nothing is retried. *)
Definition match_unsigned (cs : list ascii) : option (list ascii) :=
  let '(ds, rest) := span_digits cs in
  match ds with
  | [] => None
  | _ :: _ =>
      match rest with
      | "."%char :: rest' => Some (ds ++ "."%char :: (span_digits rest').1)
      | _ => Some ds
      end
  end.

(** The pattern at the head of [cs]; [signed] is the leading [-?]. *)
Definition match_number (signed : bool) (cs : list ascii)
  : option (list ascii) :=
  match cs with
  | "-"%char :: cs' =>
      if signed then cons "-"%char <$> match_unsigned cs' else None
  | _ => match_unsigned cs
  end.

(** [re.findall(pattern, s)] is only ever tested for emptiness and read at
    index 0: the leftmost match, if there is one. *)
Fixpoint first_number (signed : bool) (cs : list ascii)
  : option (list ascii) :=
  match match_number signed cs with
  | Some m => Some m
  | None =>
      match cs with
      | [] => None
      | _ :: cs' => first_number signed cs'
      end
  end.

(** [re.findall(p, s.replace(',', '.').replace('%', ''))], first element. *)
Definition find_number (signed : bool) (s : string) : option string :=
  text <$> first_number signed
             (remove_char "%"%char (replace_char ","%char "."%char (chars s))).

(** *** [float(s)] for a string *)

(** A digit part: digits, with single underscores between digits.  The
    head of the input is known to be a digit when this is called on the
    tail. *)
Fixpoint digit_part_tail (cs : list ascii) : list ascii * list ascii :=
  match cs with
  | c :: cs' =>
      if is_digit c
      then let '(ds, rest) := digit_part_tail cs' in (c :: ds, rest)
      else if Ascii.eqb c "_"%char then
        match cs' with
        | d :: cs'' =>
            if is_digit d
            then let '(ds, rest) := digit_part_tail cs'' in (d :: ds, rest)
            else ([], cs)
        | [] => ([], cs)
        end
      else ([], cs)
  | [] => ([], [])
  end.

Definition digit_part (cs : list ascii) : list ascii * list ascii :=
  match cs with
  | c :: cs' =>
      if is_digit c
      then let '(ds, rest) := digit_part_tail cs' in (c :: ds, rest)
      else ([], cs)
  | [] => ([], [])
  end.

Definition digits_value (ds : list ascii) : Z :=
  foldl (fun acc d => (10 * acc + digit_value d)%Z) 0%Z ds.

Fixpoint strip_left (cs : list ascii) : list ascii :=
  match cs with
  | c :: cs' => if is_space c then strip_left cs' else cs
  | [] => []
  end.

Definition strip_spaces (cs : list ascii) : list ascii :=
  rev (strip_left (rev (strip_left cs))).

(** The mantissa and the decimal exponent, as the number they denote. *)
Definition decimal (negative : bool) (int_digits frac_digits : list ascii)
    (exponent : Z) : Q :=
  let m := digits_value (int_digits ++ frac_digits) in
  let m := if negative then (- m)%Z else m in
  let k := (exponent - Z.of_nat (length frac_digits))%Z in
  if (0 <=? k)%Z then inject_Z (m * 10 ^ k)
  else Qmake m (Z.to_pos (10 ^ (- k))).

(** The exponent part [e[+-]digits] that ends the numeral, if any; the
    numeral ends after it. *)
Definition exponent_part (cs : list ascii) : option Z :=
  match cs with
  | [] => Some 0%Z
  | e :: cs' =>
      if Ascii.eqb e "e"%char || Ascii.eqb e "E"%char then
        let '(negative, cs'') :=
          match cs' with
          | "-"%char :: r => (true, r)
          | "+"%char :: r => (false, r)
          | _ => (false, cs')
          end in
        match digit_part cs'' with
        | ((_ :: _) as ds, []) =>
            Some (if negative then (- digits_value ds)%Z else digits_value ds)
        | _ => None
        end
      else None
  end.

(** [float(s)]: white space around, a sign, digits with an optional point,
    an optional exponent; [None] is [ValueError]. *)
Definition parse_float (s : string) : option Q :=
  let cs := strip_spaces (chars s) in
  let '(negative, cs) :=
    match cs with
    | "-"%char :: r => (true, r)
    | "+"%char :: r => (false, r)
    | _ => (false, cs)
    end in
  let '(int_digits, cs) := digit_part cs in
  let '(frac_digits, cs) :=
    match cs with
    | "."%char :: r => digit_part r
    | _ => ([], cs)
    end in
  match int_digits, frac_digits with
  | [], [] => None
  | _, _ => decimal negative int_digits frac_digits <$> exponent_part cs
  end.

End PyStr.

(** The builtins whose result depends on the Unicode tables or on the
    shortest-digits printing of floats: [str.lower], [str.upper],
    [str.strip] and [str] of a [float].  The development fixes none of them:
    every theorem holds for all. *)
Class PyText : Type := {
  lower : string -> string;
  upper : string -> string;
  strip : string -> string;
  float_repr : Q -> string
}.

(** ** processors/excel_reader.py *)

Module ExcelReader.

(** The value of a cell, as [openpyxl] hands it over with
    [data_only=True]: empty, a boolean, an integer, a float or a string. *)
Inductive cell_value : Type :=
| VNone
| VBool (b : bool)
| VInt (n : Z)
| VFloat (q : Q)
| VStr (s : string).

(** A worksheet is its grid: the rows from row 1 on, each the cells from
    column 1 on.  A cell outside the stored grid is empty. *)
Definition worksheet : Type := list (list cell_value).

(** [worksheet.cell(row=r, column=c).value]; [ValueError] ([None]) below
    row 1 or column 1. *)
Definition cell (ws : worksheet) (r c : Z) : option cell_value :=
  if (r <? 1)%Z || (c <? 1)%Z then None
  else Some (default VNone
               (ws !! Z.to_nat (r - 1) ≫= fun cells => cells !! Z.to_nat (c - 1))).

(** [if cell.value:] *)
Definition truthy (v : cell_value) : bool :=
  match v with
  | VNone => false
  | VBool b => b
  | VInt n => negb (n =? 0)%Z
  | VFloat q => negb (q =? 0)%num
  | VStr s => negb (String.eqb s "")
  end.

(** [float(cell.value)]; [None] is [ValueError] or [TypeError]. *)
Definition py_float (v : cell_value) : option Q :=
  match v with
  | VNone => None
  | VBool b => Some (if b then 1 else 0)%Q
  | VInt n => Some (inject_Z n)
  | VFloat q => Some q
  | VStr s => PyStr.parse_float s
  end.

(** A [for] loop whose body returns from the function on success. *)
Fixpoint first_some {A B : Type} (body : A -> option B) (items : list A)
  : option B :=
  match items with
  | [] => None
  | x :: items' =>
      match body x with
      | Some y => Some y
      | None => first_some body items'
      end
  end.

(** *** [extract_value_near_cell] *)

Definition search_positions (row col : Z) : list (Z * Z) :=
  [ (row, col + 1); (row, col + 2); (row, col + 3);
    (row + 1, col); (row + 1, col + 1); (row + 1, col + 2);
    (row + 2, col); (row + 2, col + 1) ]%Z.

(** The number embedded in a string: the first match of [-?\d+\.?\d*] after
    the commas became points and the percent signs were removed. *)
Definition embedded_number (signed : bool) (v : cell_value) : option Q :=
  match v with
  | VStr s => PyStr.find_number signed s ≫= PyStr.parse_float
  | _ => None
  end.

(** The test of a candidate of [search_positions] (lines 66-84). *)
Definition number_in_cell (v : cell_value) : option Q :=
  match v with
  | VNone => None
  | _ =>
      match py_float v with
      | Some value => Some value
      | None => embedded_number true v
      end
  end.

(** The test of a candidate of the search along the row and the column
    (lines 93-99 and 106-112). *)
Definition number_of_cell (v : cell_value) : option Q :=
  match v with
  | VNone => None
  | _ => py_float v
  end.

(** The body of the loop over [search_positions]. *)
Definition near_candidate (ws : worksheet) (pos : Z * Z) : option Q :=
  cell ws pos.1 pos.2 ≫= number_in_cell.

(** The two halves of the body of the loop over [range(1, 11)]. *)
Definition right_candidate (ws : worksheet) (row col i : Z) : option Q :=
  cell ws row (col + i) ≫= number_of_cell.
Definition down_candidate (ws : worksheet) (row col i : Z) : option Q :=
  cell ws (row + i) col ≫= number_of_cell.

Definition ray_candidate (ws : worksheet) (row col i : Z) : option Q :=
  match right_candidate ws row col i with
  | Some value => Some value
  | None => down_candidate ws row col i
  end.

Definition extract_value_near_cell (ws : worksheet) (row col : Z)
  : option Q :=
  match first_some (near_candidate ws) (search_positions row col) with
  | Some value => Some value
  | None => first_some (ray_candidate ws row col) (Z.of_nat <$> seq 1 10)
  end.

(** *** The probe of the fixed cells for [irr] (lines 203-256) *)

(** The cell E15 (lines 207-230). *)
Definition irr_primary (v : cell_value) : option Q :=
  match v with
  | VNone => None
  | _ =>
      match py_float v with
      | Some value =>
          let value :=
            if (0 <=? value)%num && (value <? 1)%num
            then (value * 100)%Q else value in
          if (0 <=? value)%num && (value <=? 100)%num
          then Some value else None
      | None =>
          val ← embedded_number false v;
          let val := if (val <? 1)%num then (val * 100)%Q else val in
          if (0 <=? val)%num && (val <=? 100)%num then Some val else None
      end
  end.

(** The cells D15 and D16 (lines 236-254). *)
Definition irr_alternative (v : cell_value) : option Q :=
  match v with
  | VNone => None
  | _ =>
      match py_float v with
      | Some value =>
          if (0 <=? value)%num && (value <=? 100)%num
          then Some value else None
      | None =>
          val ← embedded_number false v;
          if (0 <=? val)%num && (val <=? 100)%num then Some val else None
      end
  end.

Definition irr_special_probe (ws : worksheet) : option Q :=
  match cell ws 15 5 ≫= irr_primary with
  | Some value => Some value
  | None =>
      first_some (fun row_num => cell ws row_num 4 ≫= irr_alternative)
        [15; 16]%Z
  end.

(** *** [find_cell_by_text] and [extract_project_data] *)

Section Extractor.

Context {text_builtins : PyText}.

(** [str(cell.value)] *)
Definition py_str (v : cell_value) : string :=
  match v with
  | VNone => "None"
  | VBool b => if b then "True" else "False"
  | VInt n => pretty n
  | VFloat q => float_repr q
  | VStr s => s
  end.

(** [str(cell.value).lower() if not case_sensitive else str(cell.value)] *)
Definition compared_text (case_sensitive : bool) (v : cell_value) : string :=
  if negb case_sensitive then lower (py_str v) else py_str v.

(** The inner loop of [find_cell_by_text]: the cells of row [r], from
    column [c] on. *)
Fixpoint find_in_row (search_lower : string) (case_sensitive : bool)
    (r c : Z) (cells : list cell_value) : option (Z * Z) :=
  match cells with
  | [] => None
  | value :: cells' =>
      if truthy value then
        let cell_value := compared_text case_sensitive value in
        if PyStr.contains search_lower cell_value then Some (r, c)
        else find_in_row search_lower case_sensitive r (c + 1)%Z cells'
      else find_in_row search_lower case_sensitive r (c + 1)%Z cells'
  end.

(** The outer loop, over [worksheet.iter_rows()], from row [r] on. *)
Fixpoint find_in_rows (search_lower : string) (case_sensitive : bool)
    (r : Z) (rows : list (list cell_value)) : option (Z * Z) :=
  match rows with
  | [] => None
  | cells :: rows' =>
      match find_in_row search_lower case_sensitive r 1 cells with
      | Some pos => Some pos
      | None => find_in_rows search_lower case_sensitive (r + 1)%Z rows'
      end
  end.

Definition find_cell_by_text (ws : worksheet) (search_text : string)
    (case_sensitive : bool) : option (Z * Z) :=
  let search_lower :=
    if negb case_sensitive then lower search_text else search_text in
  find_in_rows search_lower case_sensitive 1 ws.

(** The dictionary [data] that [extract_project_data] fills. *)
Abbreviation data_map := (gmap string pyval).

(** The loop over the known project types (lines 154-162): the last value
    of [project_type_cell] and the dictionary when the loop ends. *)
Fixpoint probe_project_types (ws : worksheet) (data : data_map)
    (project_type_cell : option (Z * Z)) (project_types : list string)
  : option (Z * Z) * data_map :=
  match project_types with
  | [] => (project_type_cell, data)
  | project_type :: rest =>
      let project_type_cell := find_cell_by_text ws project_type false in
      match project_type_cell with
      | Some (row, col) =>
          match cell ws row col with
          | Some (VStr s) =>
              if truthy (VStr s)
              then (project_type_cell, <["type" := PStr (strip s)]> data)
              else probe_project_types ws data project_type_cell rest
          | _ => probe_project_types ws data project_type_cell rest
          end
      | None => probe_project_types ws data project_type_cell rest
      end
  end.

(** The loop over the neighbours of the label (lines 167-177). *)
Fixpoint probe_type_neighbours (ws : worksheet) (data : data_map)
    (row col : Z) (offsets : list Z) : data_map :=
  match offsets with
  | [] => data
  | offset :: rest =>
      match cell ws row (col + offset) with
      | Some (VStr s) =>
          if truthy (VStr s) && (PyStr.len s >? 2)%Z then
            if bool_decide
                 (upper (strip s) ∉
                    ["ПАРАМЕТРЫ ПРОЕКТА"; "ПРОЕКТ"; "ТИП"])
            then <["type" := PStr (strip s)]> data
            else probe_type_neighbours ws data row col rest
          else probe_type_neighbours ws data row col rest
      | _ => probe_type_neighbours ws data row col rest
      end
  end.

(** Lines 149-180, run on the first sheet. *)
Definition resolve_type (ws : worksheet) (data : data_map) : data_map :=
  let project_type_cell := find_cell_by_text ws "тип проекта" false in
  let '(project_type_cell, data) :=
    match project_type_cell with
    | Some _ => (project_type_cell, data)
    | None =>
        probe_project_types ws data project_type_cell
          ["метро"; "дорога"; "энергетика"; "мост"; "тоннель"]
    end in
  let data :=
    match project_type_cell, data !! "type" with
    | Some (row, col), None =>
        probe_type_neighbours ws data row col [1; 2; -1; -2]%Z
    | _, _ => data
    end in
  match data !! "type" with
  | None => <["type" := PStr "Не указан"]> data
  | Some _ => data
  end.

Definition search_patterns : list (string * list string) :=
  [ ("capex",
     ["стоимость строительства"; "capex"; "капитальные затраты";
      "инвестиции"]);
    ("construction_years",
     ["срок строительства"; "период строительства";
      "длительность строительства"]);
    ("debt_share",
     ["доля долга"; "процент долга"; "доля заемных средств"]);
    ("debt_rate",
     ["ставка по долгу"; "ставка долга"; "процент по долгу";
      "ставка займа"; "процент долга"]);
    ("discount_rate",
     ["ставка дисконтирования"; "дисконт"; "ставка дисконта";
      "ставка дисконтирования для бизнеса"]);
    ("npv",
     ["npv"; "чистая приведенная стоимость"; "чистая приведённая стоимость";
      "чистый приведенный доход";
      "чистая приведённая стоимость, млн. руб";
      "чистая приведённая стоимость, млн руб"]);
    ("irr",
     ["irr"; "внутренняя норма доходности";
      "внутренняя норма рентабельности"]);
    ("payback_period",
     ["срок окупаемости"; "период окупаемости"; "окупаемость"; "payback";
      "окупаемость, лет"]) ].

(** [data[key] == 0.0] *)
Definition is_zero (v : pyval) : bool :=
  match v with
  | PNum q => (q =? 0)%num
  | _ => false
  end.

(** [key not in data or data[key] == 0.0] *)
Definition unresolved (data : data_map) (key : string) : bool :=
  match data !! key with
  | None => true
  | Some v => is_zero v
  end.

(** The body of the loop over the label synonyms (lines 262-294): the value
    that the pattern resolves, if any. *)
Definition value_at_pattern (ws : worksheet) (pattern : string)
  : option Q :=
  match find_cell_by_text ws pattern false with
  | Some (row, col) =>
      let own :=
        match cell ws row col with
        | Some v =>
            if truthy v then
              match v with
              | VBool _ | VInt _ | VFloat _ => py_float v
              | VStr _ => embedded_number true v
              | VNone => None
              end
            else None
        | None => None
        end in
      match own with
      | Some value => Some value
      | None => extract_value_near_cell ws row col
      end
  | None => None
  end.

(** One round of the loop over [search_patterns.items()] (lines 195-297). *)
Definition resolve_field (ws : worksheet) (first : bool) (data : data_map)
    (entry : string * list string) : data_map :=
  let '(key, patterns) := entry in
  if negb (unresolved data key) then data
  else
    let probed :=
      if String.eqb key "irr" && first then irr_special_probe ws
      else None in
    match probed with
    | Some value => <[key := PNum value]> data
    | None =>
        match first_some (value_at_pattern ws) patterns with
        | Some value => <[key := PNum value]> data
        | None =>
            match data !! key with
            | None => <[key := PNum 0]> data
            | Some _ => data
            end
        end
    end.

(** One round of the loop over the sheets (lines 144-297); [first] says
    whether the sheet is [sheet_names[0]]. *)
Definition scan_sheet (first : bool) (data : data_map) (ws : worksheet)
  : data_map :=
  let data := if first then resolve_type ws data else data in
  foldl (resolve_field ws first) data search_patterns.

(** A loaded workbook: its first sheet and the sheets after it (a workbook
    has at least one sheet, and sheet titles are unique, so that
    [sheet_name == sheet_names[0]] holds of the first sheet only). *)
Record workbook : Type := Workbook {
  first_sheet : worksheet;
  other_sheets : list worksheet
}.

(** The dictionary after the loop over all sheets. *)
Definition scan_workbook (wb : workbook) : data_map :=
  foldl (scan_sheet false) (scan_sheet true ∅ (first_sheet wb))
    (other_sheets wb).

Definition required_fields : list string := ["npv"; "irr"; "payback_period"].

Definition missing_fields (data : data_map) : list string :=
  List.filter (unresolved data) required_fields.

(** The [ValueError] of line 311, as line 323 raises it again. *)
Definition missing_message (missing : list string) : string :=
  "Ошибка обработки файла: " ++
  ("В файле не найдены необходимые данные: " ++ String.concat ", " missing
   ++ ". " ++ "Проверьте структуру файла.").

Inductive extraction : Type :=
| Extracted (data : data_map)
| ValueError (message : string).

Definition extract_project_data (wb : workbook) : extraction :=
  let data := scan_workbook wb in
  match missing_fields data with
  | [] => Extracted data
  | missing => ValueError (missing_message missing)
  end.

End Extractor.

End ExcelReader.

(** ** processors/ai_client.py: the seed of the request (lines 146-172) *)

Module AiClient.

(** [int(s, 16)] on a string of hexadecimal digits.  The other spellings
    that [int] reads (a sign, white space, a [0x] prefix, underscores) do
    not occur in a hexadecimal digest and are [None] here, like the
    strings that make [int] raise [ValueError]. *)
Definition hex_value (c : ascii) : option Z :=
  let n := nat_of_ascii c in
  if (48 <=? n)%nat && (n <=? 57)%nat then Some (Z.of_nat n - 48)%Z
  else if (97 <=? n)%nat && (n <=? 102)%nat then Some (Z.of_nat n - 87)%Z
  else if (65 <=? n)%nat && (n <=? 70)%nat then Some (Z.of_nat n - 55)%Z
  else None.

Fixpoint int16_from (acc : Z) (cs : list ascii) : option Z :=
  match cs with
  | [] => Some acc
  | c :: cs' => d ← hex_value c; int16_from (16 * acc + d)%Z cs'
  end.

Definition int16 (s : string) : option Z :=
  match PyStr.chars s with
  | [] => None
  | cs => int16_from 0 cs
  end.

Definition hex_digit (d : Z) : ascii :=
  ascii_of_nat (Z.to_nat (if (d <? 10)%Z then d + 48 else d + 87)%Z).

(** The [k] hexadecimal digits of [n], the most significant first. *)
Fixpoint hex_digits (k : nat) (n : Z) : list ascii :=
  match k with
  | O => []
  | S k' => hex_digits k' (n / 16)%Z ++ [hex_digit (n mod 16)%Z]
  end.

(** [.hexdigest()] of a 16-byte digest, the digest being read as the
    number that its bytes spell, the first byte the most significant. *)
Definition hexdigest (digest : N) : string :=
  PyStr.text (hex_digits 32 (Z.of_N digest mod 2 ^ 128)%Z).

(** [s[:8]] *)
Definition first8 (s : string) : string :=
  PyStr.text (take 8 (PyStr.chars s)).

(** [float(d.get(key, 0))]; [None] is [TypeError] or [ValueError]. *)
Definition get_float (d : gmap string pyval) (key : string) : option Q :=
  match default (PNum 0) (d !! key) with
  | PNum q => Some q
  | PStr s => PyStr.parse_float s
  | _ => None
  end.

Section Seed.

(** The library functions of the computation: [round(x, 2)], [str],
    [json.dumps(d, sort_keys=True)] and [hashlib.md5(b).digest()]. *)
Variable round2 : Q -> Q.
Variable str_of : pyval -> string.
Variable json_dumps : gmap string pyval -> string.
Variable md5 : string -> N.

(** [round(float(d.get(key, 0)), 2)] *)
Definition normalized (d : gmap string pyval) (key : string) : option Q :=
  round2 <$> get_float d key.

(** [str(project_params.get('type', 'Не указан'))] *)
Definition type_text (project_params : gmap string pyval) : string :=
  str_of (default (PStr "Не указан") (project_params !! "type")).

(** The string that is hashed. *)
Definition data_string (project_params model_results : gmap string pyval)
  : option string :=
  capex ← normalized project_params "capex";
  construction_years ← normalized project_params "construction_years";
  debt_share ← normalized project_params "debt_share";
  debt_rate ← normalized project_params "debt_rate";
  discount_rate ← normalized project_params "discount_rate";
  let normalized_params : gmap string pyval :=
    <["capex" := PNum capex]>
    (<["construction_years" := PNum construction_years]>
    (<["debt_share" := PNum debt_share]>
    (<["debt_rate" := PNum debt_rate]>
    (<["discount_rate" := PNum discount_rate]> ∅)))) in
  npv ← normalized model_results "npv";
  irr ← normalized model_results "irr";
  payback_period ← normalized model_results "payback_period";
  let normalized_results : gmap string pyval :=
    <["npv" := PNum npv]>
    (<["irr" := PNum irr]>
    (<["payback_period" := PNum payback_period]> ∅)) in
  Some (json_dumps
          (<["type" := PStr (type_text project_params)]>
             (normalized_results ∪ normalized_params))).

(** The [seed] of the request; [None] when the computation raises. *)
Definition request_seed (project_params model_results : gmap string pyval)
  : option Z :=
  s ← data_string project_params model_results;
  n ← int16 (first8 (hexdigest (md5 s)));
  Some (n mod 2147483647)%Z.

End Seed.

End AiClient.

(** ** Definitions used by the statements *)

Module Statements.

Import RiskCalculator.

(** What one [if]/[elif] pair of [calculate_risk_score] adds. *)
Definition band (c1 c2 : bool) (a b : Z) : Z :=
  if c1 then a else if c2 then b else 0%Z.

(** The seven entries that [calculate_risk_fallback] reads. *)
Definition numeric_keys : list string :=
  [ "npv"; "irr"; "payback_period"; "debt_share"; "debt_rate";
    "construction_years"; "discount_rate" ].

(** A project map whose numeric entries, where present, are numbers. *)
Definition numeric_entries (project_data : gmap string pyval) : Prop :=
  Forall (fun key => is_Some (get_number project_data key)) numeric_keys.

(** The number under [key], 0 when the key is absent. *)
Definition entry (project_data : gmap string pyval) (key : string) : Q :=
  default 0%Q (get_number project_data key).



Definition placeholder_factor : string := "Требуется детальный анализ".





(** A sheet whose E15 is empty and whose D15 holds the fraction 0.3. *)
Definition fraction_in_D15 : ExcelReader.worksheet :=
  replicate 14 [] ++
  [ [ ExcelReader.VNone; ExcelReader.VNone; ExcelReader.VNone;
      ExcelReader.VFloat 0.3 ] ].

(** ["absent or exactly 0"], of a field of the extracted data. *)
Definition absent_or_zero (data : gmap string pyval) (field : string)
  : Prop :=
  data !! field = None
  \/ exists q : Q, data !! field = Some (PNum q) /\ (q == 0)%Q.

(** The numeric inputs of the seed: five of the project parameters and the
    three results of the model. *)
Definition param_keys : list string :=
  [ "capex"; "construction_years"; "debt_share"; "debt_rate";
    "discount_rate" ].
Definition result_keys : list string := [ "npv"; "irr"; "payback_period" ].

(** An entry that holds a number. *)
Definition numeric (data : gmap string pyval) (key : string) : Prop :=
  exists q : Q, data !! key = Some (PNum q).

(** Nothing but a number is stored under a key other than "type". *)
Definition numbers_only (data : gmap string pyval) : Prop :=
  forall (key : string) (v : pyval),
    key <> "type" -> data !! key = Some v -> exists q : Q, v = PNum q.


End Statements.

(** ** Stand-ins for the library functions

    The theorems hold for every choice of the library functions that the
    model takes as parameters.  The functions of this module have the right
    types and are simple enough to run; they serve to evaluate the model on
    examples: ASCII text, a decimal printer, rounding of exact rationals, a
    serializer of the nine known keys and a checksum in place of MD5. *)

Module Sample.

Definition map_chars (f : ascii -> ascii) (s : string) : string :=
  PyStr.text (f <$> PyStr.chars s).

Definition ascii_lower (c : ascii) : ascii :=
  let n := nat_of_ascii c in
  if (65 <=? n)%nat && (n <=? 90)%nat then ascii_of_nat (n + 32) else c.

Definition ascii_upper (c : ascii) : ascii :=
  let n := nat_of_ascii c in
  if (97 <=? n)%nat && (n <=? 122)%nat then ascii_of_nat (n - 32) else c.

Fixpoint fraction_digits (fuel : nat) (num den : Z) : list ascii :=
  match fuel with
  | O => []
  | S fuel' =>
      if (num =? 0)%Z then []
      else ascii_of_nat (Z.to_nat (num * 10 / den + 48))
           :: fraction_digits fuel' (num * 10 mod den)%Z den
  end.

Definition decimal_text (q : Q) : string :=
  let d := Zpos (Qden q) in
  let a := Z.abs (Qnum q) in
  (if (Qnum q <? 0)%Z then "-" else "") ++ pretty (a / d)%Z ++ "." ++
  match fraction_digits 17 (a mod d)%Z d with
  | [] => "0"
  | ds => PyStr.text ds
  end.

Definition ascii_text : PyText := {|
  lower := map_chars ascii_lower;
  upper := map_chars ascii_upper;
  strip := fun s => PyStr.text (PyStr.strip_spaces (PyStr.chars s));
  float_repr := decimal_text
|}.

(** Rounding to two decimals, ties to the even neighbour. *)
Definition round2 (q : Q) : Q :=
  let x := (q * 100)%Q in
  let f := Qfloor x in
  let r := (x - inject_Z f)%Q in
  let n :=
    if (r <? 0.5)%num then f
    else if (0.5 <? r)%num then (f + 1)%Z
    else if Z.even f then f else (f + 1)%Z in
  Qred (Qmake n 100).

Definition str_of (v : pyval) : string :=
  match v with
  | PNone => "None"
  | PNum q => decimal_text q
  | PStr s => s
  | PList _ => "[]"
  end.

Definition sorted_keys : list string :=
  [ "capex"; "construction_years"; "debt_rate"; "debt_share";
    "discount_rate"; "irr"; "npv"; "payback_period"; "type" ].

Definition dumps (d : gmap string pyval) : string :=
  "{" ++ String.concat ", "
           (omap (fun key : string =>
                    (fun v => String.append key
                                (String.append ": " (str_of v))) <$> d !! key)
              sorted_keys)
  ++ "}".

Definition checksum (s : string) : N :=
  foldl (fun acc c => (acc * 257 + N.of_nat (nat_of_ascii c))%N) 0%N
    (PyStr.chars s).

(** A workbook with the three required values and nothing else. *)
Definition required_only : ExcelReader.workbook :=
  ExcelReader.Workbook
    [ [ ExcelReader.VStr "NPV"; ExcelReader.VInt 200 ];
      [ ExcelReader.VStr "IRR"; ExcelReader.VInt 15 ];
      [ ExcelReader.VStr "Payback"; ExcelReader.VInt 6 ] ]
    [].


(** A project map and a model map, and the same after changes below the
    second decimal. *)
Definition params : gmap string pyval :=
  <["type" := PStr "Метро"]>
  (<["capex" := PNum 1500.004]>
  (<["debt_share" := PNum 60]> ∅)).
Definition results : gmap string pyval :=
  <["npv" := PNum 200]> (<["irr" := PNum 15.25]> ∅).

(** A map as [analyze_risks_with_fallback] merges it: a type, which the
    scorer does not read, and some of the numbers. *)
Definition project_data : gmap string pyval :=
  <["type" := PStr "Метро"]>
  (<["npv" := PNum (-5)]>
  (<["irr" := PNum 8]>
  (<["discount_rate" := PNum 10]>
  (<["debt_share" := PNum 40]> ∅)))).

End Sample.

(** ** Further definitions used by the statements *)

Module Ordinal.

(** The place of a level in the order Low, Medium, High, Critical. *)
Definition level_rank (l : RiskCalculator.RiskLevel) : Z :=
  match l with
  | RiskCalculator.Low => 0
  | RiskCalculator.Medium => 1
  | RiskCalculator.High => 2
  | RiskCalculator.Critical => 3
  end.

End Ordinal.

Module ExcelStatements.

Import ExcelReader.

(** The test that [find_cell_by_text] applies to a cell: a truthy value
    whose text contains the label. *)
Definition label_matches {text_builtins : PyText} (search_text : string)
    (case_sensitive : bool) (v : cell_value) : bool :=
  truthy v
  && PyStr.contains
       (if negb case_sensitive then lower search_text else search_text)
       (compared_text case_sensitive v).

(** [(r, c)] comes before [(row, col)] in the order of [iter_rows]. *)
Definition comes_before (r c row col : Z) : Prop :=
  (r < row)%Z \/ (r = row /\ (c < col)%Z).

(** The string contains an ASCII digit. *)
Definition has_digit (s : string) : bool :=
  existsb PyStr.is_digit (PyStr.chars s).

Abbreviation digits cs := (Forall (fun c => PyStr.is_digit c = true) cs).

(** The numerals that the two patterns match, with their digits before and
    after the point: an optional minus sign, digits, and possibly a point
    with further digits. *)
Inductive numeral : bool -> list ascii -> list ascii -> list ascii -> Prop :=
| numeral_plain (ds fs : list ascii) (point : bool) :
    ds <> [] -> digits ds -> digits fs -> (point = false -> fs = []) ->
    numeral false ds fs (ds ++ if point then "."%char :: fs else [])
| numeral_minus (ds fs m : list ascii) :
    numeral false ds fs m -> numeral true ds fs ("-"%char :: m).

(** A sheet without a truthy cell: empty cells, empty strings, zeros and
    [False] at most. *)
Definition blank (ws : worksheet) : Prop :=
  Forall (Forall (fun v => truthy v = false)) ws.

(** Every number stored is 0. *)
Definition zero_numbers (data : gmap string pyval) : Prop :=
  forall (key : string) (v : pyval),
    key <> "type" -> data !! key = Some v -> is_zero v = true.

(** A workbook of two sheets without a truthy cell. *)
Definition blank_workbook : workbook :=
  Workbook [ [ VInt 0; VStr "" ]; [ VNone; VBool false ] ] [ [] ].

(** A workbook whose E15 holds 0 on the first sheet, with a labelled rate
    on the same sheet. *)
Definition zero_in_E15 : workbook :=
  Workbook
    ([ [ VStr "NPV"; VInt 200 ];
       [ VStr "IRR"; VInt 15 ];
       [ VStr "Payback"; VInt 6 ] ] ++ replicate 11 [] ++
     [ [ VNone; VNone; VNone; VNone; VInt 0 ] ])
    [].

(** A second sheet that labels another net present value. *)
Definition second_npv : worksheet := [ [ VStr "NPV"; VInt 7 ] ].

(** The nine keys of the extracted data. *)
Definition data_keys : list string :=
  [ "type"; "capex"; "construction_years"; "debt_share"; "debt_rate";
    "discount_rate"; "npv"; "irr"; "payback_period" ].

(** A label whose own text holds a number, and a number to its right. *)
Definition label_with_year : worksheet :=
  [ [ VStr "NPV 2024"; VInt 500 ] ].

(** A sheet with the label in B2 and the same text again in C2 and A3. *)
Definition label_thrice : worksheet :=
  [ [ VNone; VInt 7 ];
    [ VStr ""; VStr "Total"; VStr "total cost" ];
    [ VStr "TOTAL" ] ].

End ExcelStatements.

(** ** handlers/file_handler.py: the two dictionaries handed to the
    analysis (lines 82-95) *)

Module FileHandler.

(** [project_data.get(key, value)] *)
Definition get (project_data : gmap string pyval) (key : string)
    (value : pyval) : pyval :=
  default value (project_data !! key).

Definition project_params (project_data : gmap string pyval)
  : gmap string pyval :=
  <["type" := get project_data "type" (PStr "Не указан")]>
  (<["capex" := get project_data "capex" (PNum 0)]>
  (<["construction_years" := get project_data "construction_years" (PNum 0)]>
  (<["debt_share" := get project_data "debt_share" (PNum 0)]>
  (<["debt_rate" := get project_data "debt_rate" (PNum 0)]>
  (<["discount_rate" := get project_data "discount_rate" (PNum 0)]> ∅))))).

Definition model_results (project_data : gmap string pyval)
  : gmap string pyval :=
  <["npv" := get project_data "npv" (PNum 0)]>
  (<["irr" := get project_data "irr" (PNum 0)]>
  (<["payback_period" := get project_data "payback_period" (PNum 0)]> ∅)).

End FileHandler.

(** ** processors/ai_client.py: the reply of the service and the fallback
    (lines 174-287) *)

Module AiReply.

(** What [response.json()] and [json.loads] return. *)
#[warnings="-register-all"]
Inductive jsonval : Type :=
| JNull
| JBool (b : bool)
| JNum (q : Q)
| JStr (s : string)
| JArr (items : list jsonval)
| JObj (members : gmap string jsonval).

(** The dictionary of [calculate_risk_fallback] among these values. *)
Fixpoint of_pyval (v : pyval) : jsonval :=
  match v with
  | PNone => JNull
  | PNum q => JNum q
  | PStr s => JStr s
  | PList l => JArr (of_pyval <$> l)
  end.

(** The exceptions, as far as the [except] clauses tell them apart:
    [requests.exceptions.Timeout]; any other [RequestException]; a
    [json.JSONDecodeError], the one that [response.json()] raises being a
    [RequestException] as well; any other [Exception] ([ValueError],
    [TypeError], [KeyError], [IndexError], [AttributeError]). *)
Inductive exn : Type :=
| Timeout
| RequestException (message : string)
| JSONDecodeError (of_requests : bool)
| OtherException.

Inductive outcome (A : Type) : Type :=
| Returned (a : A)
| Raised (e : exn).
Arguments Returned {A} a.
Arguments Raised {A} e.

#[global] Instance outcome_ret : MRet outcome := @Returned.
#[global] Instance outcome_bind : MBind outcome :=
  fun A B f m => match m with Returned a => f a | Raised e => Raised e end.

(** An operation on a value of the wrong kind, or on a missing key or
    index, raises an exception of the last class. *)
Definition lift {A : Type} (m : option A) : outcome A :=
  match m with Some a => Returned a | None => Raised OtherException end.

(** [v == key] for a string [key] *)
Definition is_text (key : string) (v : jsonval) : bool :=
  match v with JStr s => String.eqb s key | _ => false end.

(** [key in v] for a string [key]: a key of a dict, an element of a list,
    a part of a string; [TypeError] otherwise. *)
Definition contains (key : string) (v : jsonval) : option bool :=
  match v with
  | JObj members => Some (bool_decide (is_Some (members !! key)))
  | JArr items => Some (existsb (is_text key) items)
  | JStr s => Some (PyStr.contains key s)
  | _ => None
  end.

(** [v[key]] for a string [key]: [KeyError] or [TypeError] unless [v] is a
    dict that holds the key. *)
Definition subscript (v : jsonval) (key : string) : option jsonval :=
  match v with JObj members => members !! key | _ => None end.

(** [len(v) > 0] *)
Definition nonempty (v : jsonval) : option bool :=
  match v with
  | JObj members => Some (0 <? size members)%nat
  | JArr items => Some (0 <? length items)%nat
  | JStr s => Some (0 <? PyStr.len s)%Z
  | _ => None
  end.

(** The bytes 0x80..0xBF, which continue a UTF-8 sequence. *)
Definition continues (c : ascii) : bool :=
  let n := nat_of_ascii c in (128 <=? n)%nat && (n <=? 191)%nat.

(** [s[:n]] on the code points of [s]. *)
Fixpoint take_points (n : nat) (cs : list ascii) : list ascii :=
  match cs with
  | [] => []
  | c :: cs' =>
      if continues c then c :: take_points n cs'
      else match n with
           | O => []
           | S n' => c :: take_points n' cs'
           end
  end.

(** [v[0]]: the first element of a list, the first character of a string.
    The keys of a dict from JSON are strings, so that on a dict it is
    [KeyError]. *)
Definition first (v : jsonval) : option jsonval :=
  match v with
  | JArr items => items !! 0%nat
  | JStr s =>
      match PyStr.chars s with
      | [] => None
      | cs => Some (JStr (PyStr.text (take_points 1 cs)))
      end
  | _ => None
  end.

(** [v[:n]]: [TypeError] (or [KeyError]) unless [v] is a string or a
    list. *)
Definition slice (n : nat) (v : jsonval) : option jsonval :=
  match v with
  | JStr s => Some (JStr (PyStr.text (take_points n (PyStr.chars s))))
  | JArr items => Some (JArr (take n items))
  | _ => None
  end.

(** [v.get(key, value)]: [AttributeError] unless [v] is a dict. *)
Definition get (v : jsonval) (key : string) (value : jsonval)
  : option jsonval :=
  match v with
  | JObj members => Some (default value (members !! key))
  | _ => None
  end.

(** [if key not in result: result[key] = value] *)
Definition set_default (key : string) (value : jsonval)
    (result : gmap string jsonval) : gmap string jsonval :=
  if bool_decide (is_Some (result !! key)) then result
  else <[key := value]> result.

(** Lines 208-220. *)
Definition backfill (result : gmap string jsonval) : gmap string jsonval :=
  let result := set_default "scenarios" (JArr []) result in
  let result := set_default "total_potential_losses" (JNum 0) result in
  let result := set_default "risk_mitigation" (JArr []) result in
  let result := set_default "business_vision" (JStr "") result in
  let result := set_default "estimated_payback" JNull result in
  let result := set_default "business_score" JNull result in
  result.

(** Lines 201-222: the result must be a dict ([result.get] at line 201) that
    holds ["risk_level"]. *)
Definition complete (result : jsonval) : outcome (gmap string jsonval) :=
  _ ← lift (get result "risk_level" (JStr "Не указан"));
  has_level ← lift (contains "risk_level" result);
  if negb has_level then Raised OtherException
  else
    match result with
    | JObj members => Returned (backfill members)
    | _ => Raised OtherException
    end.

(** The response of the service: [response.status_code], the outcome of
    [response.json()] and [response.text]. *)
Record response : Type := {
  status_code : Z;
  json : outcome jsonval;
  text : string
}.

Definition timeout_message : string :=
  "Ошибка обработки: превышено время ожидания.".
Definition unavailable_message : string :=
  "Ошибка API: сервис анализа временно недоступен.".
Definition unexpected_message : string :=
  "Ошибка API: произошла непредвиденная ошибка.".

(** The three [except] clauses of lines 256-266. *)
Definition handle {A : Type} (e : exn) : outcome A :=
  match e with
  | Timeout => Raised (RequestException timeout_message)
  | RequestException _ | JSONDecodeError true =>
      Raised (RequestException unavailable_message)
  | JSONDecodeError false | OtherException =>
      Raised (RequestException unexpected_message)
  end.

Section Service.

(** The library functions of the seed, [json.loads] ([None] for a text
    that is no JSON) and [repr] of a list. *)
Variable round2 : Q -> Q.
Variable str_of : pyval -> string.
Variable json_dumps : gmap string pyval -> string.
Variable md5 : string -> N.
Variable json_loads : string -> option jsonval.
Variable repr : jsonval -> string.

(** [json.loads(content)] *)
Definition loads (content : jsonval) : outcome jsonval :=
  match content with
  | JStr s =>
      match json_loads s with
      | Some v => Returned v
      | None => Raised (JSONDecodeError false)
      end
  | _ => Raised OtherException
  end.

(** Lines 191-199. *)
Definition read_reply (api_response : jsonval) : outcome jsonval :=
  has_choices ← lift (contains "choices" api_response);
  enveloped ←
    (if has_choices : bool
     then choices ← lift (subscript api_response "choices");
          lift (nonempty choices)
     else mret false);
  if enveloped : bool
  then
    choices ← lift (subscript api_response "choices");
    choice ← lift (first choices);
    message ← lift (subscript choice "message");
    content ← lift (subscript message "content");
    loads content
  else
    direct ← lift (contains "risk_level" api_response);
    if direct : bool then mret api_response
    else Raised OtherException.

(** Lines 186-226: the inner [try], whose [except] clause turns a
    [json.JSONDecodeError] into a [ValueError]. *)
Definition ok (r : response) : outcome (gmap string jsonval) :=
  match (api_response ← json r;
         result ← read_reply api_response;
         complete result) with
  | Raised (JSONDecodeError _) => Raised OtherException
  | reply => reply
  end.

(** Lines 230-234. *)
Definition error_message (r : response) : jsonval :=
  match (error_data ← json r;
         error ← lift (get error_data "error" (JObj ∅));
         lift (get error "message" (JStr (text r)))) with
  | Returned message => message
  | Raised _ => JStr (text r)
  end.

(** How an f-string shows a value. *)
Definition shown (v : jsonval) : string :=
  match v with JStr s => s | _ => repr v end.

(** Lines 235-238. *)
Definition bad_request (r : response) : outcome (gmap string jsonval) :=
  let error_message := error_message r in
  _ ← lift (slice 500 error_message);
  invalid_url ← lift (contains "Invalid URL" error_message);
  _ ← (if invalid_url : bool then mret true
       else lift (contains "GET" error_message));
  head ← lift (slice 200 error_message);
  Raised (RequestException ("Ошибка API: " ++ shown head)).

(** Lines 185-254. *)
Definition respond (r : response) : outcome (gmap string jsonval) :=
  if (status_code r =? 200)%Z then ok r
  else if (status_code r =? 400)%Z then bad_request r
  else if (status_code r =? 500)%Z
  then Raised (RequestException
                 "Ошибка API: сервис анализа временно недоступен.")
  else if (status_code r =? 503)%Z
  then Raised (RequestException
                 "Ошибка API: сервис анализа временно недоступен.")
  else Raised (RequestException
                 ("Ошибка API: получен статус " ++ pretty (status_code r)
                  ++ ". " ++ "Сервис анализа временно недоступен.")).

(** [analyze_risks], [post] being the outcome of [requests.post] for the
    request, which is sent once the seed is computed. *)
Definition analyze_risks (project_params model_results : gmap string pyval)
    (post : outcome response) : outcome (gmap string jsonval) :=
  match (_ ← lift (AiClient.request_seed round2 str_of json_dumps md5
                     project_params model_results);
         r ← post;
         respond r) with
  | Returned result => Returned result
  | Raised e => handle e
  end.

Definition analyze_risks_with_fallback
    (project_params model_results : gmap string pyval)
    (post : outcome response) : outcome (gmap string jsonval) :=
  match analyze_risks project_params model_results post with
  | Returned result => Returned result
  | Raised _ =>
      let all_data := model_results ∪ project_params in
      match RiskCalculator.calculate_risk_fallback all_data with
      | Some result => Returned (of_pyval <$> result)
      | None => Raised OtherException
      end
  end.

End Service.

End AiReply.

(** ** handlers/file_handler.py: the message cut in two (lines 190-208) *)

Module Messages.

Section Replies.

(** A string as the sequence of its characters, with the line feed and the
    characters that [strip()] removes. *)
Context {char : Type} `{EqDecision char}.
Variable newline : char.
Variable is_space : char -> bool.

(** [s.rfind(c)] for a one-character [c]: the last index, -1 when [c] does
    not occur. *)
Fixpoint rfind (c : char) (s : list char) : Z :=
  match s with
  | [] => (-1)%Z
  | x :: s' =>
      let i := rfind c s' in
      if (0 <=? i)%Z then (i + 1)%Z
      else if bool_decide (x = c) then 0%Z else (-1)%Z
  end.

Fixpoint lstrip (s : list char) : list char :=
  match s with
  | x :: s' => if is_space x then lstrip s' else s
  | [] => []
  end.

(** [s.strip()] *)
Definition strip (s : list char) : list char :=
  reverse (lstrip (reverse (lstrip s))).

(** The truth value of a string. *)
Definition truthy (s : list char) : bool :=
  match s with [] => false | _ => true end.

(** The texts given to [reply_text], in order, when no call raises. *)
Definition replies (vision_message : list char) : list (list char) :=
  let max_length := 4000%Z in
  if (Z.of_nat (length vision_message) >? max_length)%Z
  then
    let first_part := take (Z.to_nat max_length) vision_message in
    let last_newline := rfind newline first_part in
    let '(first_part, second_part) :=
      if (inject_Z last_newline >? inject_Z max_length * 0.8)%num
      then (take (Z.to_nat last_newline) vision_message,
            drop (Z.to_nat (last_newline + 1)) vision_message)
      else (first_part, drop (Z.to_nat max_length) vision_message) in
    first_part :: (if truthy (strip second_part) then [second_part] else [])
  else [vision_message].

End Replies.

End Messages.

(** ** Further definitions used by the statements on the reply *)

Module ReplyStatements.

Import AiReply.

(** The values of lines 208-220. *)
Definition defaults : gmap string jsonval :=
  <["scenarios" := JArr []]>
  (<["total_potential_losses" := JNum 0]>
  (<["risk_mitigation" := JArr []]>
  (<["business_vision" := JStr ""]>
  (<["estimated_payback" := JNull]>
  (<["business_score" := JNull]> ∅))))).

(** The keys that a result of [analyze_risks] holds. *)
Definition reply_keys : list string :=
  [ "risk_level"; "scenarios"; "total_potential_losses"; "risk_mitigation";
    "business_vision"; "estimated_payback"; "business_score" ].

(** A string or a list: the values that [v[:n]] accepts. *)
Definition sliceable (v : jsonval) : bool :=
  match v with JStr _ | JArr _ => true | _ => false end.

End ReplyStatements.

Module ReplySample.

Import AiReply.

(** A reply of two members, the text that stands for it, and a parser that
    reads this text only. *)
Definition low_risk : gmap string jsonval :=
  <["risk_level" := JStr "Низкий"]> (<["business_score" := JNum 75]> ∅).

Definition loads (s : string) : option jsonval :=
  if String.eqb s "{risk_level: low, business_score: 75}"
  then Some (JObj low_risk) else None.

Definition repr (v : jsonval) : string := "[...]".

(** The reply wrapped as a chat completion, first alone and then beside a
    [risk_level] of its own. *)
Definition choices : jsonval :=
  JArr [ JObj (<["message" :=
                   JObj (<["content" :=
                             JStr "{risk_level: low, business_score: 75}"]> ∅)]>
               ∅) ].
Definition envelope : gmap string jsonval := <["choices" := choices]> ∅.
Definition envelope' : gmap string jsonval :=
  <["choices" := choices]> (<["risk_level" := JStr "Высокий"]> ∅).

Definition completion : response :=
  {| status_code := 200; json := Returned (JObj envelope'); text := "" |}.
Definition not_found : response :=
  {| status_code := 404; json := Raised (JSONDecodeError true);
     text := "Not Found" |}.

End ReplySample.

(** * Properties *)

(** ** Comparisons of numbers *)

Lemma ltb_lt x y : Num.ltb x y = true <-> (x < y)%Q.
Proof.
  unfold Num.ltb. rewrite negb_true_iff. split.
  - intros H. apply Qnot_le_lt. intros Hle.
    apply Qle_bool_iff in Hle. congruence.
  - intros H. destruct (Qle_bool y x) eqn:E; [|reflexivity].
    apply Qle_bool_iff in E. lra.
Qed.

Lemma ltb_ge x y : Num.ltb x y = false <-> (y <= x)%Q.
Proof. unfold Num.ltb. rewrite negb_false_iff. apply Qle_bool_iff. Qed.

Lemma leb_le x y : Num.leb x y = true <-> (x <= y)%Q.
Proof. apply Qle_bool_iff. Qed.

Lemma leb_gt x y : Num.leb x y = false <-> (y < x)%Q.
Proof.
  unfold Num.leb. split.
  - intros H. apply Qnot_le_lt. intros Hle.
    apply Qle_bool_iff in Hle. congruence.
  - intros H. destruct (Qle_bool x y) eqn:E; [|reflexivity].
    apply Qle_bool_iff in E. lra.
Qed.

Lemma gtb_gt x y : Num.gtb x y = true <-> (y < x)%Q.
Proof. apply ltb_lt. Qed.

Lemma gtb_le x y : Num.gtb x y = false <-> (x <= y)%Q.
Proof. apply ltb_ge. Qed.

Lemma eqb_eq x y : Num.eqb x y = true <-> (x == y)%Q.
Proof. apply Qeq_bool_iff. Qed.

(** Case analysis on every comparison of the goal, reflected into [Q]. *)
Ltac num_cases :=
  repeat match goal with
  | |- context [Num.ltb ?a ?b] =>
      let E := fresh "E" in
      destruct (Num.ltb a b) eqn:E;
      [apply ltb_lt in E | apply ltb_ge in E]
  | |- context [Num.gtb ?a ?b] =>
      let E := fresh "E" in
      destruct (Num.gtb a b) eqn:E;
      [apply gtb_gt in E | apply gtb_le in E]
  | |- context [Num.leb ?a ?b] =>
      let E := fresh "E" in
      destruct (Num.leb a b) eqn:E;
      [apply leb_le in E | apply leb_gt in E]
  end.

Ltac num_solve :=
  num_cases; cbn [andb orb negb];
  first [reflexivity | lia | exfalso; lra].

(** ** The fallback scorer *)

Section Scorer.

Import RiskCalculator Statements.

Lemma band_add (c1 c2 : bool) (a b s : Z) :
  (if c1 then s + a else if c2 then s + b else s)%Z = (s + band c1 c2 a b)%Z.
Proof. unfold band. destruct c1, c2; lia. Qed.

(** The score is the clamped sum of the seven contributions. *)
Lemma calculate_risk_score_bands
    (npv irr payback_period debt_share debt_rate construction_years
     discount_rate : Q) :
  calculate_risk_score npv irr payback_period debt_share debt_rate
    construction_years discount_rate =
  Z.min 100
    (band (npv <? 0)%num (npv <? 50)%num 40 20 +
     band (irr <? discount_rate)%num (irr <? discount_rate * 1.1)%num 30 15 +
     band (payback_period >? 15)%num (payback_period >? 10)%num 30 20 +
     band (debt_share >? 70)%num (debt_share >? 50)%num 35 25 +
     band (debt_rate >? 20)%num (debt_rate >? 15)%num 30 20 +
     band (construction_years >? 7)%num (construction_years >? 5)%num 25 15 +
     band (discount_rate >? 25)%num (discount_rate >? 20)%num 20 10)%Z.
Proof.
  unfold calculate_risk_score. cbv zeta.
  rewrite !band_add. f_equal.
Qed.









(** C6.  [score_to_risk_level] is a step function of the integer score:
    Low exactly up to 30, Medium exactly from 31 to 60, High exactly from 61
    to 85 and Critical exactly from 86 on; the eight boundary scores map as
    listed. *)
Theorem score_to_risk_level_steps :
  (forall s : Z,
     (score_to_risk_level s = Low <-> (s <= 30)%Z)
     /\ (score_to_risk_level s = Medium <-> (31 <= s <= 60)%Z)
     /\ (score_to_risk_level s = High <-> (61 <= s <= 85)%Z)
     /\ (score_to_risk_level s = Critical <-> (86 <= s)%Z))
  /\ score_to_risk_level 0 = Low /\ score_to_risk_level 30 = Low
  /\ score_to_risk_level 31 = Medium /\ score_to_risk_level 60 = Medium
  /\ score_to_risk_level 61 = High /\ score_to_risk_level 85 = High
  /\ score_to_risk_level 86 = Critical
  /\ score_to_risk_level 100 = Critical.
Proof.
  split; [|repeat split; reflexivity].
  intros s. unfold score_to_risk_level.
  destruct (Z.leb_spec s 30); [repeat split; intros; try lia; congruence|].
  destruct (Z.leb_spec s 60); [repeat split; intros; try lia; congruence|].
  destruct (Z.leb_spec s 85); repeat split; intros; try lia; congruence.
Qed.

Lemma band_above_mono (hi lo : Q) (a b : Z) (x x' : Q) :
  (0 <= b <= a)%Z -> (lo <= hi)%Q -> (x <= x')%Q ->
  (band (x >? hi)%num (x >? lo)%num a b
   <= band (x' >? hi)%num (x' >? lo)%num a b)%Z.
Proof. intros Hab Hlo Hx. unfold band. num_solve. Qed.

Lemma band_irr_mono (irr d d' : Q) :
  (d <= d')%Q ->
  (band (irr <? d)%num (irr <? d * 1.1)%num 30 15
   <= band (irr <? d')%num (irr <? d' * 1.1)%num 30 15)%Z.
Proof. intros Hd. unfold band. num_solve. Qed.

(** C7.  [calculate_risk_score] is non-decreasing in each of
    [payback_period], [debt_share], [debt_rate], [construction_years] and
    [discount_rate] while the other six inputs are held fixed. *)
Theorem calculate_risk_score_monotone
    (npv irr payback_period debt_share debt_rate construction_years
     discount_rate x x' : Q) :
  (x <= x')%Q ->
  (calculate_risk_score npv irr x debt_share debt_rate construction_years
     discount_rate
   <= calculate_risk_score npv irr x' debt_share debt_rate
        construction_years discount_rate)%Z
  /\ (calculate_risk_score npv irr payback_period x debt_rate
        construction_years discount_rate
      <= calculate_risk_score npv irr payback_period x' debt_rate
           construction_years discount_rate)%Z
  /\ (calculate_risk_score npv irr payback_period debt_share x
        construction_years discount_rate
      <= calculate_risk_score npv irr payback_period debt_share x'
           construction_years discount_rate)%Z
  /\ (calculate_risk_score npv irr payback_period debt_share debt_rate x
        discount_rate
      <= calculate_risk_score npv irr payback_period debt_share debt_rate x'
           discount_rate)%Z
  /\ (calculate_risk_score npv irr payback_period debt_share debt_rate
        construction_years x
      <= calculate_risk_score npv irr payback_period debt_share debt_rate
           construction_years x')%Z.
Proof.
  intros Hx. rewrite !calculate_risk_score_bands.
  assert (Hpayback := band_above_mono 15 10 30 20 x x').
  assert (Hshare := band_above_mono 70 50 35 25 x x').
  assert (Hrate := band_above_mono 20 15 30 20 x x').
  assert (Hyears := band_above_mono 7 5 25 15 x x').
  assert (Hdiscount := band_above_mono 25 20 20 10 x x').
  assert (Hirr := band_irr_mono irr x x' Hx).
  specialize (Hpayback ltac:(lia) ltac:(lra) Hx).
  specialize (Hshare ltac:(lia) ltac:(lra) Hx).
  specialize (Hrate ltac:(lia) ltac:(lra) Hx).
  specialize (Hyears ltac:(lia) ltac:(lra) Hx).
  specialize (Hdiscount ltac:(lia) ltac:(lra) Hx).
  repeat split; apply Z.min_le_compat_l; lia.
Qed.

(** The witness of C7: raising the debt share from 40 to 80. *)
Lemma calculate_risk_score_monotone_witness :
  (40 <= 80)%Q
  /\ (calculate_risk_score 120 18 8 40 12 4 10
      <= calculate_risk_score 120 18 8 80 12 4 10)%Z.
Proof.
  assert (H : (40 <= 80)%Q) by (vm_compute; discriminate).
  split; [exact H|].
  exact (proj1 (proj2
    (calculate_risk_score_monotone 120 18 8 40 12 4 10 40 80 H))).
Defined.



End Scorer.

(** ** Loops that return on the first success *)

Section FirstSome.

Import ExcelReader.

Context {A B : Type}.
Implicit Types (body : A -> option B) (items : list A).

Lemma first_some_None body items :
  first_some body items = None <-> Forall (fun x => body x = None) items.
Proof.
  induction items as [|x items IH]; simpl.
  - split; [constructor | reflexivity].
  - destruct (body x) eqn:E.
    + split; [discriminate|]. intros HF. apply Forall_cons in HF.
      destruct HF as [HF _]. congruence.
    + rewrite IH. split.
      * intros HF. constructor; assumption.
      * intros HF. apply Forall_cons in HF. tauto.
Qed.


Lemma first_some_inv body items (y : B) :
  first_some body items = Some y ->
  exists (k : nat) (x : A),
    items !! k = Some x /\ body x = Some y
    /\ forall (j : nat) (x' : A),
         (j < k)%nat -> items !! j = Some x' -> body x' = None.
Proof.
  induction items as [|x0 items IH]; simpl; [discriminate|].
  destruct (body x0) eqn:E.
  - intros [= ->]. exists 0%nat, x0. repeat split; [assumption|].
    intros j x' Hj. lia.
  - intros Hy. destruct (IH Hy) as (k & x & Hk & Hx & Hbefore).
    exists (S k), x. repeat split; [assumption..|].
    intros [|j] x' Hj; simpl.
    + intros [= <-]. assumption.
    + apply Hbefore. lia.
Qed.

End FirstSome.

(** ** The search around a label *)

Section NearCell.

Import ExcelReader Statements.




(** A cell that the test of the eight offsets rejects is rejected by the
    test of the search along the row and the column. *)
Lemma number_in_cell_None (v : cell_value) :
  number_in_cell v = None -> number_of_cell v = None.
Proof.
  destruct v; simpl; try reflexivity; try discriminate.
  destruct (PyStr.parse_float s); [discriminate | reflexivity].
Qed.


Lemma ray_positions_before (j : nat) (i' : Z) :
  (Z.of_nat <$> seq 1 10) !! j = Some i' -> i' = Z.of_nat (S j).
Proof.
  rewrite list_lookup_fmap. intros H.
  destruct (seq 1 10 !! j) as [n|] eqn:E; [|discriminate].
  apply lookup_seq in E. destruct E as [-> _]. injection H as <-.
  reflexivity.
Qed.




End NearCell.

(** ** The probe of the fixed cells for [irr] *)

Section IrrProbe.

Import ExcelReader Statements.






End IrrProbe.

(** ** The cell locator *)

Section Locator.

Import ExcelReader Statements.

Context {text_builtins : PyText}.

Lemma find_in_row_Some (search_lower : string) (case_sensitive : bool)
    (r c : Z) (cells : list cell_value) (pos : Z * Z) :
  find_in_row search_lower case_sensitive r c cells = Some pos ->
  exists (k : nat) (v : cell_value),
    cells !! k = Some v /\ pos = (r, c + Z.of_nat k)%Z
    /\ truthy v = true
    /\ PyStr.contains search_lower (compared_text case_sensitive v) = true.
Proof.
  revert c. induction cells as [|value cells IH]; intros c; simpl.
  - discriminate.
  - destruct (truthy value) eqn:Ht.
    + destruct (PyStr.contains search_lower _) eqn:Hc.
      * intros [= <-]. exists 0%nat, value.
        repeat split; [f_equal; lia | assumption | assumption].
      * intros H. destruct (IH _ H) as (k & v & Hk & -> & Hv & Hin).
        exists (S k), v. repeat split; [assumption | f_equal; lia | assumption..].
    + intros H. destruct (IH _ H) as (k & v & Hk & -> & Hv & Hin).
      exists (S k), v. repeat split; [assumption | f_equal; lia | assumption..].
Qed.

Lemma find_in_rows_Some (search_lower : string) (case_sensitive : bool)
    (r : Z) (rows : list (list cell_value)) (pos : Z * Z) :
  find_in_rows search_lower case_sensitive r rows = Some pos ->
  exists (i k : nat) (cells : list cell_value) (v : cell_value),
    rows !! i = Some cells /\ cells !! k = Some v
    /\ pos = (r + Z.of_nat i, 1 + Z.of_nat k)%Z
    /\ truthy v = true
    /\ PyStr.contains search_lower (compared_text case_sensitive v) = true.
Proof.
  revert r. induction rows as [|cells rows IH]; intros r; simpl.
  - discriminate.
  - destruct (find_in_row search_lower case_sensitive r 1 cells) eqn:Hrow.
    + intros [= <-]. apply find_in_row_Some in Hrow.
      destruct Hrow as (k & v & Hk & -> & Hv & Hin).
      exists 0%nat, k, cells, v.
      repeat split; [assumption | f_equal; lia | assumption..].
    + intros H. destruct (IH _ H) as (i & k & cells' & v & Hi & Hk & -> & Hv & Hin).
      exists (S i), k, cells', v.
      repeat split; [assumption | assumption | f_equal; lia | assumption..].
Qed.

Lemma cell_lookup (ws : worksheet) (i k : nat) (cells : list cell_value)
    (v : cell_value) :
  ws !! i = Some cells -> cells !! k = Some v ->
  cell ws (1 + Z.of_nat i) (1 + Z.of_nat k) = Some v.
Proof.
  intros Hi Hk. unfold cell.
  assert (Hr : (1 + Z.of_nat i <? 1)%Z = false) by (apply Z.ltb_ge; lia).
  assert (Hc : (1 + Z.of_nat k <? 1)%Z = false) by (apply Z.ltb_ge; lia).
  rewrite Hr, Hc. cbn [orb].
  replace (Z.to_nat (1 + Z.of_nat i - 1)) with i by lia.
  replace (Z.to_nat (1 + Z.of_nat k - 1)) with k by lia.
  rewrite Hi. simpl. rewrite Hk. reflexivity.
Qed.

Lemma truthy_values (v : cell_value) :
  truthy v = true ->
  v <> VNone /\ v <> VStr "" /\ v <> VBool false /\ v <> VInt 0
  /\ forall q : Q, (q == 0)%Q -> v <> VFloat q.
Proof.
  intros Hv. repeat split; try (intros ->; discriminate Hv).
  intros q Hq ->. simpl in Hv. apply eqb_eq in Hq.
  rewrite Hq in Hv. discriminate.
Qed.

(** The located cell holds the label and is truthy. *)
Lemma find_cell_by_text_Some (ws : worksheet) (search_text : string)
    (case_sensitive : bool) (row col : Z) :
  find_cell_by_text ws search_text case_sensitive = Some (row, col) ->
  exists v : cell_value,
    cell ws row col = Some v /\ truthy v = true
    /\ PyStr.contains
         (if negb case_sensitive then lower search_text else search_text)
         (compared_text case_sensitive v) = true.
Proof.
  unfold find_cell_by_text. intros H. apply find_in_rows_Some in H.
  destruct H as (i & k & cells & v & Hi & Hk & [= -> ->] & Hv & Hin).
  exists v. repeat split; [|assumption..].
  apply (cell_lookup _ _ _ _ _ Hi Hk).
Qed.

(** C10.  [find_cell_by_text] only returns the coordinate of a cell whose
    value is truthy: never a cell that is empty or that holds the empty
    string, [False] or the number 0.  A sheet whose only cell is the number
    0 has no match for any label, not even for "0", which is the text of
    that number. *)
Theorem find_cell_by_text_truthy (ws : worksheet) (search_text : string)
    (case_sensitive : bool) :
  (forall row col : Z,
     find_cell_by_text ws search_text case_sensitive = Some (row, col) ->
     exists v : cell_value,
       cell ws row col = Some v /\ truthy v = true
       /\ v <> VNone /\ v <> VStr "" /\ v <> VBool false /\ v <> VInt 0
       /\ forall q : Q, (q == 0)%Q -> v <> VFloat q)
  /\ PyStr.contains "0" (py_str (VInt 0)) = true
  /\ find_cell_by_text [[VInt 0]] search_text case_sensitive = None
  /\ find_cell_by_text [[VInt 0]] "0" true = None.
Proof.
  split; [|repeat split; reflexivity].
  intros row col H. apply find_cell_by_text_Some in H.
  destruct H as (v & Hcell & Hv & _).
  exists v. split; [assumption|]. split; [assumption|].
  apply truthy_values. assumption.
Qed.

End Locator.

(** The witness of C10: the label "0" is found in the string cell B1, past
    the number 0 of A1. *)
Lemma find_cell_by_text_truthy_witness :
  @ExcelReader.find_cell_by_text Sample.ascii_text
     [[ExcelReader.VInt 0; ExcelReader.VStr "x0"]] "0" true = Some (1, 2)%Z
  /\ exists v : ExcelReader.cell_value,
       ExcelReader.cell
         [[ExcelReader.VInt 0; ExcelReader.VStr "x0"]] 1 2 = Some v
       /\ ExcelReader.truthy v = true.
Proof.
  assert (H : @ExcelReader.find_cell_by_text Sample.ascii_text
                [[ExcelReader.VInt 0; ExcelReader.VStr "x0"]] "0" true
              = Some (1, 2)%Z) by reflexivity.
  split; [exact H|].
  destruct (proj1 (@find_cell_by_text_truthy Sample.ascii_text
                     [[ExcelReader.VInt 0; ExcelReader.VStr "x0"]] "0" true)
              1%Z 2%Z H) as (v & Hcell & Hv & _).
  exists v. split; assumption.
Defined.

(** ** The extraction of the project data *)

Section Extraction.

Import ExcelReader Statements.

Context {text_builtins : PyText}.

Lemma unresolved_iff (data : gmap string pyval) (field : string) :
  unresolved data field = true <-> absent_or_zero data field.
Proof.
  unfold unresolved, absent_or_zero.
  destruct (data !! field) as [v|]; [|tauto].
  split.
  - intros Hz. right. destruct v; try discriminate.
    exists q. split; [reflexivity | apply eqb_eq; assumption].
  - intros [H | (q & [= ->] & Hq)]; [discriminate|].
    apply eqb_eq. assumption.
Qed.

Lemma missing_fields_spec (data : gmap string pyval) (field : string) :
  field ∈ missing_fields data
  <-> field ∈ required_fields /\ absent_or_zero data field.
Proof.
  unfold missing_fields.
  rewrite list_elem_of_In, filter_In, <- list_elem_of_In, unresolved_iff.
  reflexivity.
Qed.

(** *** Every numeric field holds a number once a sheet was scanned *)

Lemma probe_project_types_others (ws : worksheet)
    (data : gmap string pyval) (last : option (Z * Z))
    (project_types : list string) (key : string) :
  key <> "type" ->
  (probe_project_types ws data last project_types).2 !! key = data !! key.
Proof.
  intros Hkey. revert last.
  induction project_types as [|t rest IH]; intros last; simpl;
    [reflexivity|].
  destruct (find_cell_by_text ws t false) as [[row col]|]; [|apply IH].
  destruct (cell ws row col) as [[| | | |s]|]; try apply IH.
  destruct (negb _); [|apply IH].
  simpl. apply lookup_insert_ne. congruence.
Qed.

Lemma probe_type_neighbours_others (ws : worksheet)
    (data : gmap string pyval) (row col : Z) (offsets : list Z)
    (key : string) :
  key <> "type" ->
  probe_type_neighbours ws data row col offsets !! key = data !! key.
Proof.
  intros Hkey. induction offsets as [|offset rest IH]; simpl;
    [reflexivity|].
  destruct (cell ws row (col + offset)) as [[| | | |s]|]; try apply IH.
  destruct (_ && _); [|apply IH].
  destruct (bool_decide _); [|apply IH].
  apply lookup_insert_ne. congruence.
Qed.

Lemma resolve_type_others (ws : worksheet) (data : gmap string pyval)
    (key : string) :
  key <> "type" -> resolve_type ws data !! key = data !! key.
Proof.
  intros Hkey. unfold resolve_type.
  set (found := find_cell_by_text ws "тип проекта" false).
  set (probed := match found with
                 | Some _ => (found, data)
                 | None => probe_project_types ws data found _
                 end).
  assert (Hprobed : probed.2 !! key = data !! key).
  { subst probed. destruct found; [reflexivity|].
    apply probe_project_types_others. assumption. }
  destruct probed as [cell1 data1]. simpl in Hprobed.
  set (data2 := match cell1, data1 !! "type" with
                | Some (row, col), None => _
                | _, _ => data1
                end).
  assert (Hdata2 : data2 !! key = data !! key).
  { subst data2. destruct cell1 as [[row col]|]; [|assumption].
    destruct (data1 !! "type"); [assumption|].
    rewrite probe_type_neighbours_others by assumption. assumption. }
  destruct (data2 !! "type"); [assumption|].
  rewrite lookup_insert_ne by congruence. assumption.
Qed.

(** One round for one field: the other entries are left alone, and the
    entry of the field either stays or becomes a number. *)
Lemma resolve_field_lookup (ws : worksheet) (first : bool)
    (data : gmap string pyval) (key : string) (patterns : list string) :
  let data' := resolve_field ws first data (key, patterns) in
  (forall key' : string, key' <> key -> data' !! key' = data !! key')
  /\ ((is_Some (data !! key) /\ data' !! key = data !! key)
      \/ numeric data' key).
Proof.
  unfold resolve_field, numeric.
  destruct (unresolved data key) eqn:Hun; simpl.
  2: { split; [reflexivity|]. left. split; [|reflexivity].
       unfold unresolved in Hun. destruct (data !! key); [eauto|discriminate]. }
  destruct (if String.eqb key "irr" && first then irr_special_probe ws
            else None) as [value|].
  { split; [intros key' Hne; apply lookup_insert_ne; congruence|].
    right. exists value. apply lookup_insert_eq. }
  destruct (first_some (value_at_pattern ws) patterns) as [value|].
  { split; [intros key' Hne; apply lookup_insert_ne; congruence|].
    right. exists value. apply lookup_insert_eq. }
  destruct (data !! key) as [v|] eqn:Hkey.
  - split; [reflexivity|]. left. rewrite Hkey. eauto.
  - split; [intros key' Hne; apply lookup_insert_ne; congruence|].
    right. exists 0%Q. apply lookup_insert_eq.
Qed.

Lemma resolve_fields_numeric (ws : worksheet) (first : bool)
    (entries : list (string * list string)) (data : gmap string pyval) :
  Forall (fun entry => entry.1 <> "type") entries ->
  numbers_only data ->
  let data' := foldl (resolve_field ws first) data entries in
  numbers_only data'
  /\ (forall key : string, numeric data key -> numeric data' key)
  /\ Forall (fun entry => numeric data' entry.1) entries.
Proof.
  intros Hentries. revert data.
  induction Hentries as [|[key patterns] entries Hkey _ IH];
    intros data Hdata; simpl.
  { split; [assumption|]. split; [tauto | constructor]. }
  simpl in Hkey.
  destruct (resolve_field_lookup ws first data key patterns)
    as [Hothers Hthis].
  set (data1 := resolve_field ws first data (key, patterns)) in *.
  assert (Hdata1 : numbers_only data1).
  { intros key' v Htype Hv. destruct (decide (key' = key)) as [->|Hne].
    - destruct Hthis as [[_ Hsame] | [q Hq]].
      + rewrite Hsame in Hv. apply (Hdata key v Htype Hv).
      + exists q. congruence.
    - rewrite (Hothers key' Hne) in Hv. apply (Hdata key' v Htype Hv). }
  assert (Hkept : forall key', numeric data key' -> numeric data1 key').
  { intros key' [q Hq]. destruct (decide (key' = key)) as [->|Hne].
    - destruct Hthis as [[_ Hsame] | Hnum]; [|assumption].
      exists q. congruence.
    - exists q. rewrite (Hothers key' Hne). assumption. }
  assert (Hnow : numeric data1 key).
  { destruct Hthis as [[[v Hv] Hsame] | Hnum]; [|assumption].
    destruct (Hdata key v Hkey Hv) as [q ->].
    exists q. congruence. }
  destruct (IH data1 Hdata1) as (Hall & Hkeep & Hentries').
  split; [assumption|]. split; [auto|].
  constructor; [apply Hkeep; assumption | assumption].
Qed.

Lemma search_patterns_keys :
  Forall (fun entry : string * list string => entry.1 <> "type")
    search_patterns.
Proof. repeat constructor; discriminate. Qed.

Lemma scan_sheet_numeric (first : bool) (data : gmap string pyval)
    (ws : worksheet) :
  numbers_only data ->
  numbers_only (scan_sheet first data ws)
  /\ Forall (fun entry : string * list string =>
               numeric (scan_sheet first data ws) entry.1) search_patterns.
Proof.
  intros Hdata. unfold scan_sheet.
  set (data0 := if first then resolve_type ws data else data).
  assert (Hdata0 : numbers_only data0).
  { subst data0. destruct first; [|assumption].
    intros key v Htype Hv. rewrite resolve_type_others in Hv by assumption.
    apply (Hdata key v Htype Hv). }
  destruct (resolve_fields_numeric ws first search_patterns data0
              search_patterns_keys Hdata0) as (H1 & _ & H3).
  split; assumption.
Qed.

Lemma scan_workbook_numeric (wb : workbook) :
  numbers_only (scan_workbook wb)
  /\ Forall (fun entry : string * list string =>
               numeric (scan_workbook wb) entry.1) search_patterns.
Proof.
  unfold scan_workbook.
  assert (Hfirst := scan_sheet_numeric true ∅ (first_sheet wb)).
  specialize (Hfirst ltac:(intros key v _ Hv; rewrite lookup_empty in Hv;
                           discriminate)).
  generalize dependent (scan_sheet true ∅ (first_sheet wb)).
  induction (other_sheets wb) as [|ws sheets IH]; intros data Hdata; simpl.
  - assumption.
  - apply IH. apply scan_sheet_numeric. apply Hdata.
Qed.


End Extraction.


(** ** The seed of the request *)

Section SeedFacts.

Import AiClient Statements.

Lemma hex_value_digit (d : Z) :
  (0 <= d < 16)%Z -> hex_value (hex_digit d) = Some d.
Proof.
  intros Hd.
  assert (Hcases : (d = 0 \/ d = 1 \/ d = 2 \/ d = 3 \/ d = 4 \/ d = 5
                    \/ d = 6 \/ d = 7 \/ d = 8 \/ d = 9 \/ d = 10
                    \/ d = 11 \/ d = 12 \/ d = 13 \/ d = 14 \/ d = 15)%Z)
    by lia.
  repeat (destruct Hcases as [-> | Hcases]; [reflexivity|]).
  subst d. reflexivity.
Qed.

Lemma int16_from_app (acc : Z) (cs1 cs2 : list ascii) :
  int16_from acc (cs1 ++ cs2) =
  int16_from acc cs1 ≫= fun acc' => int16_from acc' cs2.
Proof.
  revert acc. induction cs1 as [|c cs1 IH]; intros acc; simpl;
    [reflexivity|].
  destruct (hex_value c) as [d|]; simpl; [apply IH | reflexivity].
Qed.

Lemma int16_from_hex_digits (k : nat) (acc n : Z) :
  (0 <= n)%Z ->
  int16_from acc (hex_digits k n) =
  Some (acc * 16 ^ Z.of_nat k + n mod 16 ^ Z.of_nat k)%Z.
Proof.
  revert acc n. induction k as [|k IH]; intros acc n Hn.
  - simpl. f_equal. rewrite Z.mod_1_r. lia.
  - cbn [hex_digits]. rewrite int16_from_app, IH by (apply Z.div_pos; lia).
    cbn [mbind option_bind int16_from].
    rewrite hex_value_digit by (apply Z.mod_pos_bound; lia).
    cbn [mbind option_bind]. f_equal.
    rewrite Nat2Z.inj_succ, Z.pow_succ_r by lia.
    rewrite (Z.rem_mul_r n 16 (16 ^ Z.of_nat k)) by lia.
    lia.
Qed.

Lemma hex_digits_length (k : nat) (n : Z) : length (hex_digits k n) = k.
Proof.
  revert n. induction k as [|k IH]; intros n; [reflexivity|].
  cbn [hex_digits]. rewrite length_app, IH. simpl. lia.
Qed.

Lemma hex_digits_split (a b : nat) (n : Z) :
  hex_digits (a + b) n =
  hex_digits a (n / 16 ^ Z.of_nat b)%Z ++ hex_digits b n.
Proof.
  revert n. induction b as [|b IH]; intros n.
  - rewrite Nat.add_0_r. simpl. rewrite Z.div_1_r, app_nil_r. reflexivity.
  - rewrite Nat.add_succ_r. cbn [hex_digits]. rewrite IH.
    rewrite Z.div_div by lia.
    rewrite Nat2Z.inj_succ, Z.pow_succ_r by lia.
    rewrite <- app_assoc. reflexivity.
Qed.

(** The first eight hexadecimal digits of a digest spell its 32 most
    significant bits. *)
Lemma first8_hexdigest (digest : N) :
  int16 (first8 (hexdigest digest)) =
  Some ((Z.of_N digest mod 2 ^ 128) / 2 ^ 96)%Z.
Proof.
  unfold first8, hexdigest, int16, PyStr.chars, PyStr.text.
  set (n := (Z.of_N digest mod 2 ^ 128)%Z).
  assert (Hn : (0 <= n < 2 ^ 128)%Z) by (apply Z.mod_pos_bound; lia).
  rewrite !list_ascii_of_string_of_list_ascii.
  change 32%nat with (8 + 24)%nat. rewrite hex_digits_split.
  rewrite take_app_length' by (symmetry; apply hex_digits_length).
  rewrite ?list_ascii_of_string_of_list_ascii.
  change (16 ^ Z.of_nat 24)%Z with (2 ^ 96)%Z.
  set (m := (n / 2 ^ 96)%Z).
  assert (Hm : (0 <= m < 2 ^ 32)%Z).
  { subst m. split; [apply Z.div_pos; lia|].
    apply Z.div_lt_upper_bound; lia. }
  pose proof (hex_digits_length 8 m) as Hlen.
  pose proof (int16_from_hex_digits 8 0 m (proj1 Hm)) as Hint.
  destruct (hex_digits 8 m) as [|c cs]; [discriminate Hlen|].
  rewrite Hint. f_equal.
  change (16 ^ Z.of_nat 8)%Z with (2 ^ 32)%Z.
  rewrite Z.mod_small by lia. lia.
Qed.

Section AnyLibrary.

Variable round2 : Q -> Q.
Variable str_of : pyval -> string.
Variable json_dumps : gmap string pyval -> string.
Variable md5 : string -> N.


End AnyLibrary.


End SeedFacts.



(** ** More on the fallback scorer *)

Section ScorerMore.

Import RiskCalculator Statements Ordinal.

Lemma band_below_antitone (hi lo : Q) (a b : Z) (x x' : Q) :
  (0 <= b <= a)%Z -> (hi <= lo)%Q -> (x <= x')%Q ->
  (band (x' <? hi)%num (x' <? lo)%num a b
   <= band (x <? hi)%num (x <? lo)%num a b)%Z.
Proof. intros Hab Hlo Hx. unfold band. num_solve. Qed.

Lemma band_irr_antitone (d x x' : Q) :
  (x <= x')%Q ->
  (band (x' <? d)%num (x' <? d * 1.1)%num 30 15
   <= band (x <? d)%num (x <? d * 1.1)%num 30 15)%Z.
Proof. intros Hx. unfold band. num_solve. Qed.

(** X1.  [calculate_risk_score] is non-increasing in [npv] and in [irr]
    while the other six inputs are held fixed. *)
Theorem calculate_risk_score_antitone
    (npv irr payback_period debt_share debt_rate construction_years
     discount_rate x x' : Q) :
  (x <= x')%Q ->
  (calculate_risk_score x' irr payback_period debt_share debt_rate
     construction_years discount_rate
   <= calculate_risk_score x irr payback_period debt_share debt_rate
        construction_years discount_rate)%Z
  /\ (calculate_risk_score npv x' payback_period debt_share debt_rate
        construction_years discount_rate
      <= calculate_risk_score npv x payback_period debt_share debt_rate
           construction_years discount_rate)%Z.
Proof.
  intros Hx. rewrite !calculate_risk_score_bands.
  assert (Hnpv := band_below_antitone 0 50 40 20 x x'
                    ltac:(lia) ltac:(lra) Hx).
  assert (Hirr := band_irr_antitone discount_rate x x' Hx).
  split; apply Z.min_le_compat_l; lia.
Qed.

(** The witness of X1: a net present value of 60 instead of -5. *)
Lemma calculate_risk_score_antitone_witness :
  (-5 <= 60)%Q
  /\ (calculate_risk_score 60 18 8 40 12 4 10
      <= calculate_risk_score (-5) 18 8 40 12 4 10)%Z.
Proof.
  assert (H : (-5 <= 60)%Q) by (vm_compute; discriminate).
  split; [exact H|].
  exact (proj1 (calculate_risk_score_antitone 0 18 8 40 12 4 10 (-5) 60 H)).
Defined.

(** X2.  [score_to_risk_level] preserves the order: a higher score never
    maps to a lower level. *)
Theorem score_to_risk_level_monotone (s s' : Z) :
  (s <= s')%Z ->
  (level_rank (score_to_risk_level s)
   <= level_rank (score_to_risk_level s'))%Z.
Proof.
  intros Hs. unfold score_to_risk_level.
  destruct (Z.leb_spec s 30), (Z.leb_spec s' 30),
    (Z.leb_spec s 60), (Z.leb_spec s' 60),
    (Z.leb_spec s 85), (Z.leb_spec s' 85); simpl; lia.
Qed.

(** The witness of X2. *)
Lemma score_to_risk_level_monotone_witness :
  (45 <= 70)%Z
  /\ (level_rank (score_to_risk_level 45)
      <= level_rank (score_to_risk_level 70))%Z.
Proof.
  assert (H : (45 <= 70)%Z) by lia.
  split; [exact H|]. exact (score_to_risk_level_monotone 45 70 H).
Defined.

Lemma get_number_None (project_data : gmap string pyval) (key : string) :
  get_number project_data key = None
  <-> exists v : pyval,
        project_data !! key = Some v /\ forall q : Q, v <> PNum q.
Proof.
  unfold get_number. destruct (project_data !! key) as [v|].
  - destruct v as [|q|s|l].
    + split; [|reflexivity]. intros _. exists PNone.
      split; [reflexivity | intros q; discriminate].
    + split; [discriminate|]. intros (v & [= <-] & Hv).
      destruct (Hv q). reflexivity.
    + split; [|reflexivity]. intros _. exists (PStr s).
      split; [reflexivity | intros q; discriminate].
    + split; [|reflexivity]. intros _. exists (PList l).
      split; [reflexivity | intros q; discriminate].
  - split; [discriminate | intros (v & Hv & _); discriminate].
Qed.

(** X3.  [calculate_risk_fallback] fails (with the [TypeError] of a
    comparison) exactly when one of the seven entries that it reads is
    present and is not a number. *)
Theorem calculate_risk_fallback_fails_iff
    (project_data : gmap string pyval) :
  calculate_risk_fallback project_data = None
  <-> exists (key : string) (v : pyval),
        key ∈ numeric_keys /\ project_data !! key = Some v
        /\ forall q : Q, v <> PNum q.
Proof.
  split.
  - unfold calculate_risk_fallback. intros Hfail.
    assert (Hone : exists key, key ∈ numeric_keys
                               /\ get_number project_data key = None).
    { unfold numeric_keys.
      destruct (get_number project_data "npv") eqn:H1;
        [|exists "npv"; split; [repeat constructor | assumption]].
      destruct (get_number project_data "irr") eqn:H2;
        [|exists "irr"; split; [repeat constructor | assumption]].
      destruct (get_number project_data "payback_period") eqn:H3;
        [|exists "payback_period"; split; [repeat constructor | assumption]].
      destruct (get_number project_data "debt_share") eqn:H4;
        [|exists "debt_share"; split; [repeat constructor | assumption]].
      destruct (get_number project_data "debt_rate") eqn:H5;
        [|exists "debt_rate"; split; [repeat constructor | assumption]].
      destruct (get_number project_data "construction_years") eqn:H6;
        [|exists "construction_years"; split; [repeat constructor | assumption]].
      destruct (get_number project_data "discount_rate") eqn:H7;
        [|exists "discount_rate"; split; [repeat constructor | assumption]].
      discriminate Hfail. }
    destruct Hone as (key & Hkey & Hnone).
    apply get_number_None in Hnone. destruct Hnone as (v & Hv & Hnum).
    exists key, v. auto.
  - intros (key & v & Hkey & Hv & Hnum).
    assert (Hnone : get_number project_data key = None)
      by (apply get_number_None; eauto).
    unfold calculate_risk_fallback.
    destruct (get_number project_data "npv") eqn:H1; [|reflexivity].
    destruct (get_number project_data "irr") eqn:H2; [|reflexivity].
    destruct (get_number project_data "payback_period") eqn:H3;
      [|reflexivity].
    destruct (get_number project_data "debt_share") eqn:H4; [|reflexivity].
    destruct (get_number project_data "debt_rate") eqn:H5; [|reflexivity].
    destruct (get_number project_data "construction_years") eqn:H6;
      [|reflexivity].
    destruct (get_number project_data "discount_rate") eqn:H7;
      [|reflexivity].
    exfalso. unfold numeric_keys in Hkey.
    repeat (apply elem_of_cons in Hkey as [-> | Hkey]); try congruence.
    inversion Hkey.
Qed.

Lemma calculate_risk_fallback_ext
    (project_data project_data' : gmap string pyval) :
  (forall key : string,
     key ∈ numeric_keys ->
     get_number project_data key = get_number project_data' key) ->
  calculate_risk_fallback project_data
  = calculate_risk_fallback project_data'.
Proof.
  intros Hget. unfold calculate_risk_fallback, numeric_keys in *.
  rewrite !Hget by (repeat constructor). reflexivity.
Qed.

(** X4.  [calculate_risk_fallback] reads nothing but the seven numeric
    entries: two maps that agree on them get the same analysis, whatever
    their type, their capex or any other entry. *)
Theorem calculate_risk_fallback_reads_seven
    (project_data project_data' : gmap string pyval) :
  (forall key : string,
     key ∈ numeric_keys -> project_data !! key = project_data' !! key) ->
  calculate_risk_fallback project_data
  = calculate_risk_fallback project_data'.
Proof.
  intros Hagree. apply calculate_risk_fallback_ext.
  intros key Hkey. unfold get_number. rewrite (Hagree key Hkey).
  reflexivity.
Qed.

Lemma band_nonneg (c1 c2 : bool) (a b : Z) :
  (0 <= a)%Z -> (0 <= b)%Z -> (0 <= band c1 c2 a b)%Z.
Proof. intros Ha Hb. unfold band. destruct c1, c2; lia. Qed.

(** What the checks behind the critical factors imply for the score. *)
Lemma factor_checks_score
    (npv irr payback_period debt_share debt_rate construction_years
     discount_rate : Q) :
  let score :=
    calculate_risk_score npv irr payback_period debt_share debt_rate
      construction_years discount_rate in
  ((npv <? 0)%num = true -> (40 <= score)%Z)
  /\ ((npv <? 0)%num = true -> (irr <? discount_rate)%num = true ->
      (70 <= score)%Z)
  /\ ((npv <? 0)%num = true -> (irr <? discount_rate)%num = true ->
      (debt_share >? 50)%num = true -> (payback_period >? 10)%num = true ->
      score = 100%Z).
Proof.
  intros score. subst score. rewrite calculate_risk_score_bands.
  assert (H3 := band_nonneg (payback_period >? 15)%num
                  (payback_period >? 10)%num 30 20 ltac:(lia) ltac:(lia)).
  assert (H4 := band_nonneg (debt_share >? 70)%num
                  (debt_share >? 50)%num 35 25 ltac:(lia) ltac:(lia)).
  assert (H5 := band_nonneg (debt_rate >? 20)%num
                  (debt_rate >? 15)%num 30 20 ltac:(lia) ltac:(lia)).
  assert (H6 := band_nonneg (construction_years >? 7)%num
                  (construction_years >? 5)%num 25 15
                  ltac:(lia) ltac:(lia)).
  assert (H7 := band_nonneg (discount_rate >? 25)%num
                  (discount_rate >? 20)%num 20 10 ltac:(lia) ltac:(lia)).
  assert (H2 := band_nonneg (irr <? discount_rate)%num
                  (irr <? discount_rate * 1.1)%num 30 15
                  ltac:(lia) ltac:(lia)).
  split; [|split].
  - intros Hnpv. rewrite Hnpv. cbn [band]. lia.
  - intros Hnpv Hirr. rewrite Hnpv, Hirr. cbn [band]. lia.
  - intros Hnpv Hirr Hshare Hpayback. rewrite Hnpv, Hirr in *.
    clear H3 H4. unfold band at 3 4. rewrite Hshare, Hpayback.
    cbn [band].
    destruct (payback_period >? 15)%num, (debt_share >? 70)%num; lia.
Qed.

Lemma level_text_injective (l l' : RiskLevel) :
  level_text l = level_text l' -> l = l'.
Proof. destruct l, l'; (reflexivity || discriminate). Qed.

(** X5.  In the analysis of [calculate_risk_fallback] the level agrees
    with the factors listed: with the factor of the negative NPV the level
    is not Low; with that factor and the factor of the IRR below the
    discount rate it is High or Critical; with all four factors it is
    Critical. *)
Theorem calculate_risk_fallback_factors_level
    (project_data risk_analysis : gmap string pyval)
    (factors : list pyval) :
  calculate_risk_fallback project_data = Some risk_analysis ->
  risk_analysis !! "critical_factors" = Some (PList factors) ->
  exists level : RiskLevel,
    risk_analysis !! "risk_level" = Some (PStr (level_text level))
    /\ (PStr "Отрицательный NPV" ∈ factors -> level <> Low)
    /\ (PStr "Отрицательный NPV" ∈ factors ->
        PStr "IRR ниже ставки дисконтирования" ∈ factors ->
        level = High \/ level = Critical)
    /\ (length factors = 4%nat -> level = Critical).
Proof.
  unfold calculate_risk_fallback.
  destruct (get_number project_data "npv") as [npv|]; [|discriminate].
  destruct (get_number project_data "irr") as [irr|]; [|discriminate].
  destruct (get_number project_data "payback_period") as [payback|];
    [|discriminate].
  destruct (get_number project_data "debt_share") as [share|];
    [|discriminate].
  destruct (get_number project_data "debt_rate") as [rate|];
    [|discriminate].
  destruct (get_number project_data "construction_years") as [years|];
    [|discriminate].
  destruct (get_number project_data "discount_rate") as [discount|];
    [|discriminate].
  cbn [mbind option_bind]. intros [= <-] Hfactors.
  rewrite !lookup_insert_ne, lookup_insert_eq in Hfactors by discriminate.
  injection Hfactors as <-.
  destruct (factor_checks_score npv irr payback share rate years discount)
    as (H1 & H2 & H3).
  set (score := calculate_risk_score npv irr payback share rate years
                  discount) in *.
  assert (Hlow : (40 <= score)%Z -> score_to_risk_level score <> Low).
  { intros Hs. unfold score_to_risk_level.
    destruct (Z.leb_spec score 30); [lia|].
    destruct (score <=? 60)%Z, (score <=? 85)%Z; discriminate. }
  assert (Hhigh : (70 <= score)%Z ->
                  score_to_risk_level score = High
                  \/ score_to_risk_level score = Critical).
  { intros Hs. unfold score_to_risk_level.
    destruct (Z.leb_spec score 30); [lia|].
    destruct (Z.leb_spec score 60); [lia|].
    destruct (score <=? 85)%Z; auto. }
  assert (Hcrit : score = 100%Z -> score_to_risk_level score = Critical).
  { intros ->. reflexivity. }
  exists (score_to_risk_level score). split; [reflexivity|].
  destruct (npv <? 0)%num, (irr <? discount)%num, (share >? 50)%num,
    (payback >? 10)%num;
    cbn [app fmap list_fmap];
    (split; [|split]);
    intros; auto;
    repeat match goal with
           | H : _ ∈ _ :: _ |- _ => apply elem_of_cons in H as [H | H]
           | H : _ ∈ [] |- _ => inversion H
           | H : PStr _ = PStr _ |- _ => discriminate H
           | H : length _ = _ |- _ => discriminate H
           end.
Qed.

(** X6.  An entry that is missing counts as 0: storing the number 0 under
    a numeric key that is absent does not change the analysis.  On the
    empty map the level is Low and the only factor is the placeholder. *)
Theorem calculate_risk_fallback_default
    (project_data : gmap string pyval) (key : string) :
  (key ∈ numeric_keys -> project_data !! key = None ->
   calculate_risk_fallback (<[key := PNum 0]> project_data)
   = calculate_risk_fallback project_data)
  /\ exists risk_analysis : gmap string pyval,
       calculate_risk_fallback ∅ = Some risk_analysis
       /\ risk_analysis !! "risk_level" = Some (PStr (level_text Low))
       /\ risk_analysis !! "critical_factors"
          = Some (PList [PStr placeholder_factor]).
Proof.
  split.
  - intros _ Habsent. apply calculate_risk_fallback_ext.
    intros key' _. unfold get_number.
    destruct (decide (key = key')) as [<-|Hne].
    + rewrite lookup_insert_eq, Habsent. reflexivity.
    + rewrite lookup_insert_ne by assumption. reflexivity.
  - eexists. split; [reflexivity|]. split; reflexivity.
Qed.

End ScorerMore.

(** The witness of X4: the type and the capex do not matter. *)
Lemma calculate_risk_fallback_reads_seven_witness :
  RiskCalculator.calculate_risk_fallback Sample.project_data
  = RiskCalculator.calculate_risk_fallback
      (<["type" := PStr "Мост"]> (<["capex" := PNum 900]>
         Sample.project_data)).
Proof.
  apply calculate_risk_fallback_reads_seven.
  intros key Hkey. unfold Statements.numeric_keys in Hkey.
  repeat (apply elem_of_cons in Hkey as [-> | Hkey]);
    try (inversion Hkey; fail); reflexivity.
Defined.

(** The witness of X5: the map of [Sample], with a negative NPV and an IRR
    below the discount rate, is rated High. *)
Lemma calculate_risk_fallback_factors_level_witness :
  exists (risk_analysis : gmap string pyval) (factors : list pyval),
    RiskCalculator.calculate_risk_fallback Sample.project_data
      = Some risk_analysis
    /\ risk_analysis !! "critical_factors" = Some (PList factors)
    /\ PStr "Отрицательный NPV" ∈ factors
    /\ risk_analysis !! "risk_level" <> Some (PStr "Низкий").
Proof.
  assert (H : exists risk_analysis : gmap string pyval,
             RiskCalculator.calculate_risk_fallback Sample.project_data
               = Some risk_analysis
             /\ risk_analysis !! "critical_factors"
                = Some (PList [ PStr "Отрицательный NPV";
                                PStr "IRR ниже ставки дисконтирования" ])).
  { eexists. split; [reflexivity | vm_compute; reflexivity]. }
  destruct H as (risk_analysis & Hresult & Hfactors).
  exists risk_analysis, [ PStr "Отрицательный NPV";
                          PStr "IRR ниже ставки дисконтирования" ].
  split; [exact Hresult|]. split; [exact Hfactors|].
  assert (Hin : PStr "Отрицательный NPV"
                ∈ [ PStr "Отрицательный NPV";
                    PStr "IRR ниже ставки дисконтирования" ])
    by (apply list_elem_of_here).
  split; [exact Hin|].
  destruct (calculate_risk_fallback_factors_level Sample.project_data
              risk_analysis _ Hresult Hfactors)
    as (level & Hlevel & Hnot_low & _).
  rewrite Hlevel. intros [= Htext].
  apply (Hnot_low Hin).
  destruct level; (reflexivity || discriminate Htext).
Defined.

(** The witness of X6: the map of [Sample] has no payback period. *)
Lemma calculate_risk_fallback_default_witness :
  Sample.project_data !! "payback_period" = None
  /\ RiskCalculator.calculate_risk_fallback
       (<["payback_period" := PNum 0]> Sample.project_data)
     = RiskCalculator.calculate_risk_fallback Sample.project_data.
Proof.
  assert (H : Sample.project_data !! "payback_period" = None)
    by reflexivity.
  split; [exact H|].
  apply (proj1 (calculate_risk_fallback_default Sample.project_data
                  "payback_period")); [|exact H].
  unfold Statements.numeric_keys. repeat constructor.
Defined.

(** ** More on the cell locator *)

Section LocatorMore.

Import ExcelReader ExcelStatements.

Context {text_builtins : PyText}.

Lemma find_in_row_first (search_text : string) (case_sensitive : bool)
    (r c : Z) (cells : list cell_value) :
  match find_in_row
          (if negb case_sensitive then lower search_text else search_text)
          case_sensitive r c cells with
  | Some pos =>
      exists (k : nat) (v : cell_value),
        cells !! k = Some v /\ pos = (r, c + Z.of_nat k)%Z
        /\ label_matches search_text case_sensitive v = true
        /\ forall (j : nat) (v' : cell_value),
             (j < k)%nat -> cells !! j = Some v' ->
             label_matches search_text case_sensitive v' = false
  | None =>
      Forall (fun v => label_matches search_text case_sensitive v = false)
        cells
  end.
Proof.
  revert c. induction cells as [|value cells IH]; intros c;
    cbn [find_in_row]; [constructor|].
  assert (Htest :
            label_matches search_text case_sensitive value
            = (if truthy value
               then PyStr.contains
                      (if negb case_sensitive then lower search_text
                       else search_text)
                      (compared_text case_sensitive value)
               else false)).
  { unfold label_matches. destruct (truthy value); reflexivity. }
  specialize (IH (c + 1)%Z).
  destruct (truthy value);
    [destruct (PyStr.contains _ (compared_text case_sensitive value))|].
  - exists 0%nat, value. repeat split; [f_equal; lia | assumption|].
    intros j v' Hj. lia.
  - destruct (find_in_row _ case_sensitive r (c + 1) cells) as [pos|].
    + destruct IH as (k & v & Hk & -> & Hv & Hbefore).
      exists (S k), v. repeat split; [assumption | f_equal; lia | assumption|].
      intros [|j] v' Hj; simpl.
      * intros [= <-]. assumption.
      * apply Hbefore. lia.
    + constructor; assumption.
  - destruct (find_in_row _ case_sensitive r (c + 1) cells) as [pos|].
    + destruct IH as (k & v & Hk & -> & Hv & Hbefore).
      exists (S k), v. repeat split; [assumption | f_equal; lia | assumption|].
      intros [|j] v' Hj; simpl.
      * intros [= <-]. assumption.
      * apply Hbefore. lia.
    + constructor; assumption.
Qed.

Lemma find_in_rows_first (search_text : string) (case_sensitive : bool)
    (r : Z) (rows : list (list cell_value)) :
  match find_in_rows
          (if negb case_sensitive then lower search_text else search_text)
          case_sensitive r rows with
  | Some pos =>
      exists (i k : nat) (cells : list cell_value) (v : cell_value),
        rows !! i = Some cells /\ cells !! k = Some v
        /\ pos = (r + Z.of_nat i, 1 + Z.of_nat k)%Z
        /\ label_matches search_text case_sensitive v = true
        /\ (forall (j : nat) (v' : cell_value),
              (j < k)%nat -> cells !! j = Some v' ->
              label_matches search_text case_sensitive v' = false)
        /\ (forall (i' : nat) (cells' : list cell_value),
              (i' < i)%nat -> rows !! i' = Some cells' ->
              Forall (fun v' =>
                        label_matches search_text case_sensitive v' = false)
                cells')
  | None =>
      Forall (Forall (fun v =>
                        label_matches search_text case_sensitive v = false))
        rows
  end.
Proof.
  revert r. induction rows as [|cells rows IH]; intros r;
    cbn [find_in_rows]; [constructor|].
  pose proof (find_in_row_first search_text case_sensitive r 1 cells)
    as Hrow.
  specialize (IH (r + 1)%Z).
  destruct (find_in_row _ case_sensitive r 1 cells) as [pos|].
  - destruct Hrow as (k & v & Hk & -> & Hv & Hbefore).
    exists 0%nat, k, cells, v.
    repeat split; [assumption | f_equal; lia | assumption | assumption|].
    intros i' cells' Hi'. lia.
  - destruct (find_in_rows _ case_sensitive (r + 1) rows) as [pos|].
    + destruct IH as (i & k & cells0 & v & Hi & Hk & -> & Hv & Hbefore
                      & Hrows).
      exists (S i), k, cells0, v.
      repeat split;
        [assumption | assumption | f_equal; lia | assumption | assumption|].
      intros [|i'] cells' Hi'; simpl.
      * intros [= <-]. assumption.
      * apply Hrows. lia.
    + constructor; assumption.
Qed.

(** A cell of the grid, or the empty cell outside of it. *)
Lemma cell_inv (ws : worksheet) (r c : Z) (v : cell_value) :
  cell ws r c = Some v ->
  (1 <= r)%Z /\ (1 <= c)%Z
  /\ (v = VNone
      \/ exists cells : list cell_value,
           ws !! Z.to_nat (r - 1) = Some cells
           /\ cells !! Z.to_nat (c - 1) = Some v).
Proof.
  unfold cell.
  destruct (Z.ltb_spec r 1); [discriminate|].
  destruct (Z.ltb_spec c 1); [discriminate|].
  cbn [orb]. intros [= <-]. split; [assumption|]. split; [assumption|].
  destruct (ws !! Z.to_nat (r - 1)) as [cells|]; cbn; [|left; reflexivity].
  destruct (cells !! Z.to_nat (c - 1)) as [v|] eqn:Hv; cbn;
    [|left; reflexivity].
  right. exists cells. split; [reflexivity | assumption].
Qed.

(** X7.  [find_cell_by_text] returns the first cell, in the order of the
    rows and then of the columns, whose value is truthy and whose text
    contains the label; it lies in the grid.  It returns nothing exactly
    when no cell of the sheet is such. *)
Theorem find_cell_by_text_first (ws : worksheet) (search_text : string)
    (case_sensitive : bool) :
  (find_cell_by_text ws search_text case_sensitive = None
   <-> forall (r c : Z) (v : cell_value),
         cell ws r c = Some v ->
         label_matches search_text case_sensitive v = false)
  /\ (forall row col : Z,
        find_cell_by_text ws search_text case_sensitive = Some (row, col) ->
        (1 <= row <= Z.of_nat (length ws))%Z /\ (1 <= col)%Z
        /\ (exists v : cell_value,
              cell ws row col = Some v
              /\ label_matches search_text case_sensitive v = true)
        /\ forall (r c : Z) (v : cell_value),
             comes_before r c row col -> cell ws r c = Some v ->
             label_matches search_text case_sensitive v = false).
Proof.
  unfold find_cell_by_text.
  pose proof (find_in_rows_first search_text case_sensitive 1 ws) as Hfind.
  cbv zeta.
  destruct (find_in_rows _ case_sensitive 1 ws) as [pos|].
  - destruct Hfind as (i & k & cells & v & Hi & Hk & -> & Hv & Hbefore
                       & Hrows).
    pose proof (cell_lookup ws i k cells v Hi Hk) as Hcell.
    split.
    + split; [discriminate|]. intros Hnone.
      rewrite (Hnone _ _ _ Hcell) in Hv. discriminate.
    + intros row col [= <- <-].
      pose proof (lookup_lt_Some _ _ _ Hi) as Hlen.
      split; [lia|]. split; [lia|]. split; [eauto|].
      intros r c v' Horder Hv'.
      apply cell_inv in Hv'. destruct Hv' as (Hr & Hc & [-> | Hgrid]).
      * reflexivity.
      * destruct Hgrid as (cells' & Hcells' & Hlookup).
        destruct Horder as [Hlt | [Heq Hlt]].
        -- assert (Hall := Hrows (Z.to_nat (r - 1)) cells'
                             ltac:(lia) Hcells').
           rewrite list.Forall_forall in Hall. apply Hall.
           apply list_elem_of_lookup. eauto.
        -- assert (Hrow : Z.to_nat (r - 1) = i) by lia.
           rewrite Hrow in Hcells'.
           assert (Hsame : Some cells = Some cells')
             by (transitivity (ws !! i); [symmetry; exact Hi | exact Hcells']).
           injection Hsame as <-.
           apply (Hbefore (Z.to_nat (c - 1)) v'); [lia | assumption].
  - split; [|intros row col H; discriminate].
    split; [|reflexivity]. intros _ r c v Hv.
    apply cell_inv in Hv. destruct Hv as (Hr & Hc & [-> | Hgrid]);
      [reflexivity|].
    destruct Hgrid as (cells & Hcells & Hlookup).
    rewrite list.Forall_forall in Hfind.
    assert (Hrow := Hfind cells ltac:(apply list_elem_of_lookup; eauto)).
    rewrite list.Forall_forall in Hrow. apply Hrow.
    apply list_elem_of_lookup. eauto.
Qed.

End LocatorMore.

(** The witness of X7: of the three cells that hold "total", B2 is found,
    which comes before C2 and A3. *)
Lemma find_cell_by_text_first_witness :
  @ExcelReader.find_cell_by_text Sample.ascii_text
     ExcelStatements.label_thrice "total" false = Some (2, 2)%Z
  /\ (forall v : ExcelReader.cell_value,
        ExcelReader.cell ExcelStatements.label_thrice 2 1 = Some v ->
        @ExcelStatements.label_matches Sample.ascii_text "total" false v
        = false).
Proof.
  assert (H : @ExcelReader.find_cell_by_text Sample.ascii_text
                ExcelStatements.label_thrice "total" false
              = Some (2, 2)%Z) by reflexivity.
  split; [exact H|].
  intros v Hv.
  destruct (proj2 (@find_cell_by_text_first Sample.ascii_text
                     ExcelStatements.label_thrice "total" false)
              2%Z 2%Z H) as (_ & _ & _ & Hbefore).
  apply (Hbefore 2%Z 1%Z v); [right; split; [reflexivity | lia] | exact Hv].
Defined.

(** ** More on the search around a label *)

Section NearCellMore.

Import ExcelReader ExcelStatements.

Lemma first_some_ext {A B : Type} (f g : A -> option B) (items : list A) :
  Forall (fun x => f x = g x) items ->
  first_some f items = first_some g items.
Proof.
  induction 1 as [|x items Hx _ IH]; simpl; [reflexivity|].
  rewrite Hx, IH. reflexivity.
Qed.

(** X8.  [extract_value_near_cell] looks at no cell outside the square of
    11 rows and 11 columns whose upper left corner is the label: two sheets
    that agree on that square give the same result, whatever they hold to
    the left of the label, above it or further away. *)
Theorem extract_value_near_cell_window (ws ws' : worksheet) (row col : Z) :
  (forall r c : Z,
     (row <= r <= row + 10)%Z -> (col <= c <= col + 10)%Z ->
     cell ws r c = cell ws' r c) ->
  extract_value_near_cell ws row col = extract_value_near_cell ws' row col.
Proof.
  intros Hsame. unfold extract_value_near_cell.
  rewrite (first_some_ext (near_candidate ws) (near_candidate ws')).
  2: { unfold search_positions, near_candidate.
       repeat constructor; cbn [fst snd]; rewrite Hsame by lia;
         reflexivity. }
  rewrite (first_some_ext (ray_candidate ws row col)
             (ray_candidate ws' row col)); [reflexivity|].
  apply list.Forall_forall. intros i Hi.
  apply list_elem_of_lookup in Hi. destruct Hi as [j Hj].
  pose proof (lookup_lt_Some _ _ _ Hj) as Hlen.
  rewrite length_fmap, length_seq in Hlen.
  apply ray_positions_before in Hj. subst i.
  unfold ray_candidate, right_candidate, down_candidate.
  rewrite !Hsame by lia. reflexivity.
Qed.

End NearCellMore.

(** The witness of X8: a number left of the label and one above it change
    nothing. *)
Lemma extract_value_near_cell_window_witness :
  ExcelReader.extract_value_near_cell
    [ [ ExcelReader.VNone; ExcelReader.VInt 7 ];
      [ ExcelReader.VInt 3; ExcelReader.VStr "IRR"; ExcelReader.VNone;
        ExcelReader.VStr "14,5%" ] ] 2 2
  = ExcelReader.extract_value_near_cell
      [ []; [ ExcelReader.VNone; ExcelReader.VStr "IRR"; ExcelReader.VNone;
              ExcelReader.VStr "14,5%" ] ] 2 2
  /\ ExcelReader.extract_value_near_cell
       [ []; [ ExcelReader.VNone; ExcelReader.VStr "IRR"; ExcelReader.VNone;
               ExcelReader.VStr "14,5%" ] ] 2 2 = Some 14.5%Q.
Proof.
  split; [|reflexivity].
  apply extract_value_near_cell_window.
  intros r c Hr Hc. unfold ExcelReader.cell.
  destruct (Z.ltb_spec r 1); [lia|]. destruct (Z.ltb_spec c 1); [lia|].
  cbn [orb]. f_equal.
  assert (Hrow : exists n : nat, Z.to_nat (r - 1) = S n)
    by (exists (Z.to_nat (r - 2)); lia).
  assert (Hcol : exists n : nat, Z.to_nat (c - 1) = S n)
    by (exists (Z.to_nat (c - 2)); lia).
  destruct Hrow as [n ->]. destruct Hcol as [m ->].
  destruct n; [|reflexivity]. reflexivity.
Defined.

(** ** More on the probe of the fixed cells *)

Section IrrProbeMore.

Import ExcelReader ExcelStatements.

Lemma accepted_bounds (x value : Q) :
  (if (0 <=? x)%num && (x <=? 100)%num then Some x else None) = Some value
  -> (0 <= value <= 100)%Q.
Proof.
  destruct ((0 <=? x)%num && (x <=? 100)%num) eqn:E; [|discriminate].
  intros [= <-]. apply andb_true_iff in E. destruct E as [E1 E2].
  apply leb_le in E1. apply leb_le in E2. split; assumption.
Qed.

Lemma irr_primary_bounds (v : cell_value) (value : Q) :
  irr_primary v = Some value -> (0 <= value <= 100)%Q.
Proof.
  unfold irr_primary. destruct v as [|b|n|q|s]; [discriminate|..];
    cbn [py_float];
    try (cbv zeta; apply accepted_bounds).
  destruct (PyStr.parse_float s) as [x|];
    [cbv zeta; apply accepted_bounds|].
  destruct (embedded_number false (VStr s)) as [x|]; [|discriminate].
  cbn [mbind option_bind]. cbv zeta. apply accepted_bounds.
Qed.

Lemma irr_alternative_bounds (v : cell_value) (value : Q) :
  irr_alternative v = Some value -> (0 <= value <= 100)%Q.
Proof.
  unfold irr_alternative. destruct v as [|b|n|q|s]; [discriminate|..];
    cbn [py_float]; try apply accepted_bounds.
  destruct (PyStr.parse_float s) as [x|]; [apply accepted_bounds|].
  destruct (embedded_number false (VStr s)) as [x|]; [|discriminate].
  cbn [mbind option_bind]. apply accepted_bounds.
Qed.

(** X9.  Whatever the fixed cells E15, D15 and D16 hold, a value that the
    probe returns lies between 0 and 100. *)
Theorem irr_special_probe_bounds (ws : worksheet) (value : Q) :
  irr_special_probe ws = Some value -> (0 <= value <= 100)%Q.
Proof.
  unfold irr_special_probe.
  destruct (cell ws 15 5 ≫= irr_primary) as [x|] eqn:Hprimary.
  - intros [= <-]. destruct (cell ws 15 5) as [v|]; [|discriminate].
    apply (irr_primary_bounds v x Hprimary).
  - cbn [first_some].
    destruct (cell ws 15 4 ≫= irr_alternative) as [x|] eqn:H15.
    + intros [= <-]. destruct (cell ws 15 4) as [v|]; [|discriminate].
      apply (irr_alternative_bounds v x H15).
    + destruct (cell ws 16 4 ≫= irr_alternative) as [x|] eqn:H16;
        [|discriminate].
      intros [= <-]. destruct (cell ws 16 4) as [v|]; [|discriminate].
      apply (irr_alternative_bounds v x H16).
Qed.

(** The witness of X9: the sheet with 0.3 in D15. *)
Lemma irr_special_probe_bounds_witness :
  irr_special_probe Statements.fraction_in_D15 = Some 0.3%Q
  /\ (0 <= 0.3 <= 100)%Q.
Proof.
  assert (H : irr_special_probe Statements.fraction_in_D15 = Some 0.3%Q)
    by reflexivity.
  split; [exact H|].
  exact (irr_special_probe_bounds Statements.fraction_in_D15 0.3%Q H).
Defined.

End IrrProbeMore.

(** ** Numbers embedded in a text *)

Section EmbeddedNumber.

Import ExcelReader ExcelStatements.

Lemma digit_not_space (c : ascii) :
  PyStr.is_digit c = true -> PyStr.is_space c = false.
Proof.
  unfold PyStr.is_digit, PyStr.is_space. cbv zeta.
  destruct (Nat.leb_spec 48 (nat_of_ascii c)); [|discriminate].
  intros _.
  destruct (Nat.leb_spec (nat_of_ascii c) 13),
    (Nat.leb_spec (nat_of_ascii c) 32),
    (Nat.leb_spec 9 (nat_of_ascii c)),
    (Nat.leb_spec 28 (nat_of_ascii c)); try reflexivity; lia.
Qed.


Lemma span_digits_spec (cs : list ascii) :
  cs = (PyStr.span_digits cs).1 ++ (PyStr.span_digits cs).2
  /\ digits (PyStr.span_digits cs).1
  /\ match (PyStr.span_digits cs).2 with
     | [] => True
     | c :: _ => PyStr.is_digit c = false
     end.
Proof.
  induction cs as [|c cs IH]; simpl; [repeat split; constructor|].
  destruct (PyStr.is_digit c) eqn:Hc; simpl.
  - destruct (PyStr.span_digits cs) as [ds rest]. simpl in *.
    destruct IH as (-> & Hds & Hrest).
    repeat split; [constructor; assumption | assumption].
  - repeat split; [constructor | assumption].
Qed.

Lemma digit_part_tail_digits (ds rest : list ascii) :
  digits ds ->
  match rest with
  | [] => True
  | c :: _ => PyStr.is_digit c = false /\ c <> "_"%char
  end ->
  PyStr.digit_part_tail (ds ++ rest) = (ds, rest).
Proof.
  intros Hds Hrest. induction Hds as [|d ds Hd _ IH]; simpl.
  - destruct rest as [|c rest']; [reflexivity|].
    destruct Hrest as [Hc Hu]. simpl. rewrite Hc.
    destruct (Ascii.eqb_spec c "_"%char); [contradiction | reflexivity].
  - rewrite Hd, IH. reflexivity.
Qed.

Lemma digit_part_digits (ds rest : list ascii) :
  digits ds ->
  match rest with
  | [] => True
  | c :: _ => PyStr.is_digit c = false /\ c <> "_"%char
  end ->
  PyStr.digit_part (ds ++ rest) = (ds, rest).
Proof.
  intros Hds Hrest. destruct Hds as [|d ds Hd Hds]; simpl.
  - destruct rest as [|c rest']; [reflexivity|].
    destruct Hrest as [Hc _]. simpl. rewrite Hc. reflexivity.
  - rewrite Hd, (digit_part_tail_digits ds rest Hds Hrest). reflexivity.
Qed.

Lemma strip_left_id (cs : list ascii) :
  match cs with
  | [] => True
  | c :: _ => PyStr.is_space c = false
  end ->
  PyStr.strip_left cs = cs.
Proof. destruct cs as [|c cs]; simpl; [reflexivity|]. intros ->. reflexivity. Qed.

Lemma strip_spaces_id (cs : list ascii) :
  Forall (fun c => PyStr.is_space c = false) cs ->
  PyStr.strip_spaces cs = cs.
Proof.
  intros Hcs. unfold PyStr.strip_spaces.
  rewrite (strip_left_id cs) by (destruct Hcs; auto).
  assert (Hrev : Forall (fun c => PyStr.is_space c = false) (rev cs))
    by (apply Forall_rev; assumption).
  rewrite (strip_left_id (rev cs)) by (destruct Hrev; auto).
  apply rev_involutive.
Qed.

Lemma match_unsigned_numeral (cs m : list ascii) :
  PyStr.match_unsigned cs = Some m ->
  exists ds fs : list ascii, numeral false ds fs m.
Proof.
  unfold PyStr.match_unsigned.
  destruct (span_digits_spec cs) as (_ & Hds & _).
  destruct (PyStr.span_digits cs) as [ds rest]. simpl in Hds.
  destruct ds as [|d ds]; [discriminate|].
  assert (Hplain : numeral false (d :: ds) [] (d :: ds)).
  { pose proof (numeral_plain (d :: ds) [] false) as H.
    rewrite app_nil_r in H. apply H; [discriminate | assumption | | ];
      [constructor | reflexivity]. }
  destruct rest as [|c rest'].
  - intros [= <-]. eauto.
  - destruct (Ascii.eqb_spec c "."%char) as [->|Hne].
    + intros [= <-]. exists (d :: ds), (PyStr.span_digits rest').1.
      apply (numeral_plain (d :: ds) _ true);
        [discriminate | assumption | apply span_digits_spec | discriminate].
    + intros Hm.
      assert (Hm' : Some (d :: ds) = Some m).
      { rewrite <- Hm. clear Hm.
        destruct c as [[] [] [] [] [] [] [] []];
          first [reflexivity | contradiction Hne; reflexivity]. }
      injection Hm' as <-. eauto.
Qed.

Lemma match_number_not_minus (signed : bool) (c : ascii)
    (cs : list ascii) :
  c <> "-"%char ->
  PyStr.match_number signed (c :: cs) = PyStr.match_unsigned (c :: cs).
Proof.
  intros Hne. unfold PyStr.match_number.
  destruct c as [[] [] [] [] [] [] [] []];
    first [reflexivity | contradiction Hne; reflexivity].
Qed.

Lemma match_number_numeral (signed : bool) (cs m : list ascii) :
  PyStr.match_number signed cs = Some m ->
  exists (negative : bool) (ds fs : list ascii),
    numeral negative ds fs m /\ (negative = true -> signed = true).
Proof.
  destruct cs as [|c cs].
  - intros Hm. apply match_unsigned_numeral in Hm.
    destruct Hm as (ds & fs & Hm). exists false, ds, fs.
    split; [assumption | discriminate].
  - destruct (Ascii.eqb_spec c "-"%char) as [->|Hne].
    + simpl. destruct signed; [|discriminate].
      destruct (PyStr.match_unsigned cs) as [m'|] eqn:Hm'; [|discriminate].
      intros [= <-]. apply match_unsigned_numeral in Hm'.
      destruct Hm' as (ds & fs & Hm'). exists true, ds, fs.
      split; [constructor; assumption | reflexivity].
    + rewrite (match_number_not_minus signed c cs Hne). intros Hm.
      apply match_unsigned_numeral in Hm.
      destruct Hm as (ds & fs & Hm). exists false, ds, fs.
      split; [assumption | discriminate].
Qed.

Lemma first_number_numeral (signed : bool) (cs m : list ascii) :
  PyStr.first_number signed cs = Some m ->
  exists (negative : bool) (ds fs : list ascii),
    numeral negative ds fs m /\ (negative = true -> signed = true).
Proof.
  induction cs as [|c cs IH]; cbn [PyStr.first_number].
  - destruct (PyStr.match_number signed []) eqn:Hm; [|discriminate].
    intros [= <-]. apply (match_number_numeral signed [] _ Hm).
  - destruct (PyStr.match_number signed (c :: cs)) eqn:Hm.
    + intros [= <-]. apply (match_number_numeral signed _ _ Hm).
    + apply IH.
Qed.

Lemma first_number_found (signed : bool) (cs : list ascii) :
  existsb PyStr.is_digit cs = true ->
  is_Some (PyStr.first_number signed cs).
Proof.
  induction cs as [|c cs IH]; [discriminate|].
  intros Hdigit. cbn [PyStr.first_number].
  destruct (PyStr.match_number signed (c :: cs)) as [m|] eqn:Hm; [eauto|].
  apply IH. simpl in Hdigit. apply orb_true_iff in Hdigit.
  destruct Hdigit as [Hc | Hrest]; [|assumption].
  exfalso.
  rewrite match_number_not_minus in Hm
    by (intros ->; discriminate Hc).
  unfold PyStr.match_unsigned in Hm. simpl in Hm. rewrite Hc in Hm.
  destruct (PyStr.span_digits cs) as [ds rest].
  destruct rest as [|r rest']; [discriminate|].
  destruct r as [[] [] [] [] [] [] [] []]; discriminate.
Qed.


Lemma cleaned_digits (cs : list ascii) :
  existsb PyStr.is_digit
    (PyStr.remove_char "%"%char (PyStr.replace_char ","%char "."%char cs))
  = existsb PyStr.is_digit cs.
Proof.
  induction cs as [|c cs IH]; [reflexivity|].
  unfold PyStr.remove_char, PyStr.replace_char in *.
  cbn [fmap list_fmap List.filter].
  destruct (Ascii.eqb_spec c ","%char) as [->|Hcomma].
  - simpl. exact IH.
  - destruct (Ascii.eqb_spec c "%"%char) as [->|Hpercent].
    + simpl. exact IH.
    + cbn [negb existsb]. rewrite IH. reflexivity.
Qed.



(** [float] reads every numeral that the patterns match. *)
Lemma parse_float_numeral (negative : bool) (ds fs m : list ascii) :
  numeral negative ds fs m ->
  PyStr.parse_float (PyStr.text m) = Some (PyStr.decimal negative ds fs 0).
Proof.
  intros Hm.
  assert (Hclean : Forall (fun c => PyStr.is_space c = false) m).
  { induction Hm as [ds fs point Hne Hds Hfs Hpoint | ds fs m Hm IH].
    - apply Forall_app. split.
      + eapply Forall_impl; [exact Hds|]. intros c. apply digit_not_space.
      + destruct point; [|constructor].
        constructor; [reflexivity|].
        eapply Forall_impl; [exact Hfs|]. intros c. apply digit_not_space.
    - constructor; [reflexivity | assumption]. }
  unfold PyStr.parse_float, PyStr.chars, PyStr.text.
  rewrite list_ascii_of_string_of_list_ascii, strip_spaces_id by assumption.
  assert (Hplain :
            forall ds fs m, numeral false ds fs m ->
              (let '(int_digits, cs) := PyStr.digit_part m in
               let '(frac_digits, cs0) :=
                 match cs with
                 | "."%char :: r => PyStr.digit_part r
                 | _ => ([], cs)
                 end in
               match int_digits, frac_digits with
               | [], [] => None
               | _, _ =>
                   PyStr.decimal false int_digits frac_digits
                   <$> PyStr.exponent_part cs0
               end) = Some (PyStr.decimal false ds fs 0)
              /\ (let '(int_digits, cs) := PyStr.digit_part m in
                  let '(frac_digits, cs0) :=
                    match cs with
                    | "."%char :: r => PyStr.digit_part r
                    | _ => ([], cs)
                    end in
                  match int_digits, frac_digits with
                  | [], [] => None
                  | _, _ =>
                      PyStr.decimal true int_digits frac_digits
                      <$> PyStr.exponent_part cs0
                  end) = Some (PyStr.decimal true ds fs 0)).
  { clear. intros ds fs m Hm. inversion Hm as [ds' fs' point Hne Hds Hfs Hpoint|];
      subst.
    destruct point.
    - rewrite (digit_part_digits ds ("."%char :: fs) Hds)
        by (split; [reflexivity | discriminate]).
      rewrite <- (app_nil_r fs) at 1 3.
      rewrite (digit_part_digits fs [] Hfs I).
      destruct ds as [|d ds]; [contradiction Hne; reflexivity|].
      split; reflexivity.
    - rewrite (Hpoint eq_refl).
      rewrite (digit_part_digits ds [] Hds I).
      destruct ds as [|d ds]; [contradiction Hne; reflexivity|].
      split; reflexivity. }
  inversion Hm as [ds' fs' point Hne Hds Hfs Hpoint | ds' fs' m' Hm']; subst.
  - destruct (Hplain ds fs _ Hm) as [Hpos _].
    destruct ds as [|d ds]; [contradiction Hne; reflexivity|].
    cbn [app].
    assert (Hd : PyStr.is_digit d = true) by (inversion Hds; assumption).
    cbn [app] in Hpos.
    destruct d as [[] [] [] [] [] [] [] []];
      try discriminate Hd; exact Hpos.
  - destruct (Hplain ds fs _ Hm') as [_ Hneg]. exact Hneg.
Qed.

Lemma embedded_number_shape (signed : bool) (s : string)
    (m : list ascii) :
  PyStr.first_number signed
    (PyStr.remove_char "%"%char
       (PyStr.replace_char ","%char "."%char (PyStr.chars s)))
  = Some m ->
  exists (negative : bool) (ds fs : list ascii),
    numeral negative ds fs m
    /\ (negative = true -> signed = true)
    /\ embedded_number signed (VStr s)
       = Some (PyStr.decimal negative ds fs 0).
Proof.
  intros Hm.
  destruct (first_number_numeral signed _ m Hm)
    as (negative & ds & fs & Hnum & Hsign).
  exists negative, ds, fs. split; [assumption|]. split; [assumption|].
  unfold embedded_number, PyStr.find_number. rewrite Hm.
  cbn [fmap option_fmap option_map mbind option_bind].
  apply parse_float_numeral. assumption.
Qed.

Lemma embedded_number_found (signed : bool) (s : string) :
  has_digit s = true -> is_Some (embedded_number signed (VStr s)).
Proof.
  unfold has_digit. rewrite <- cleaned_digits. intros Hdigit.
  destruct (first_number_found signed _ Hdigit) as [m Hm].
  destruct (embedded_number_shape signed s m Hm)
    as (negative & ds & fs & _ & _ & ->).
  eauto.
Qed.


End EmbeddedNumber.


(** ** More on the extraction *)

Section ExtractionMore.

Import ExcelReader Statements ExcelStatements.

Context {text_builtins : PyText}.

(** X11.  When the cell of the label itself is a text with a digit, the
    field takes the first number of that text and the neighbours of the
    label are not consulted. *)
Theorem value_at_pattern_own_text (ws : worksheet) (pattern : string)
    (row col : Z) (s : string) :
  find_cell_by_text ws pattern false = Some (row, col) ->
  cell ws row col = Some (VStr s) ->
  has_digit s = true ->
  value_at_pattern ws pattern = embedded_number true (VStr s)
  /\ is_Some (value_at_pattern ws pattern).
Proof.
  intros Hfind Hcell Hdigit.
  destruct (find_cell_by_text_Some ws pattern false row col Hfind)
    as (v & Hv & Htruthy & _).
  rewrite Hcell in Hv. injection Hv as <-.
  destruct (embedded_number_found true s Hdigit) as [q Hq].
  assert (Hvalue : value_at_pattern ws pattern
                   = embedded_number true (VStr s)).
  { unfold value_at_pattern. rewrite Hfind, Hcell, Htruthy, Hq.
    reflexivity. }
  split; [exact Hvalue|]. rewrite Hvalue, Hq. eauto.
Qed.

End ExtractionMore.

(** The witness of X11: the label "NPV 2024" with 500 to its right gives
    2024. *)
Lemma value_at_pattern_own_text_witness :
  @ExcelReader.find_cell_by_text Sample.ascii_text
     ExcelStatements.label_with_year "npv" false = Some (1, 1)%Z
  /\ @ExcelReader.value_at_pattern Sample.ascii_text
       ExcelStatements.label_with_year "npv" = Some 2024%Q
  /\ ExcelReader.extract_value_near_cell
       ExcelStatements.label_with_year 1 1 = Some 500%Q.
Proof.
  assert (Hfind : @ExcelReader.find_cell_by_text Sample.ascii_text
                    ExcelStatements.label_with_year "npv" false
                  = Some (1, 1)%Z) by reflexivity.
  split; [exact Hfind|]. split; [|reflexivity].
  rewrite (proj1 (@value_at_pattern_own_text Sample.ascii_text
                    ExcelStatements.label_with_year "npv" 1 1 "NPV 2024"
                    Hfind eq_refl eq_refl)).
  reflexivity.
Defined.

Section Scanning.

Import ExcelReader Statements ExcelStatements.

Context {text_builtins : PyText}.

(** A field that is resolved is left alone by every round. *)
Lemma resolve_field_keeps (ws : worksheet) (first : bool)
    (data : gmap string pyval) (entry : string * list string)
    (key : string) :
  unresolved data key = false ->
  resolve_field ws first data entry !! key = data !! key.
Proof.
  intros Hkey. destruct entry as [key' patterns].
  destruct (decide (key = key')) as [<-|Hne].
  - unfold resolve_field. rewrite Hkey. reflexivity.
  - apply (resolve_field_lookup ws first data key' patterns). assumption.
Qed.

Lemma resolve_field_unresolved (ws : worksheet) (first : bool)
    (data : gmap string pyval) (entry : string * list string)
    (key : string) :
  unresolved data key = false ->
  unresolved (resolve_field ws first data entry) key = false.
Proof.
  intros Hkey. unfold unresolved at 1.
  rewrite resolve_field_keeps by assumption. exact Hkey.
Qed.

Lemma resolve_fields_keep (ws : worksheet) (first : bool)
    (entries : list (string * list string)) (data : gmap string pyval)
    (key : string) :
  unresolved data key = false ->
  foldl (resolve_field ws first) data entries !! key = data !! key.
Proof.
  revert data. induction entries as [|entry entries IH]; intros data Hkey;
    simpl; [reflexivity|].
  rewrite IH by (apply resolve_field_unresolved; assumption).
  apply resolve_field_keeps. assumption.
Qed.

Lemma resolved_fields_kept_by_sheets (data : gmap string pyval)
    (sheets : list worksheet) (key : string) :
  unresolved data key = false ->
  foldl (scan_sheet false) data sheets !! key = data !! key.
Proof.
  revert data. induction sheets as [|ws sheets IH]; intros data Hkey;
    simpl; [reflexivity|].
  assert (Hsheet : scan_sheet false data ws !! key = data !! key)
    by (apply resolve_fields_keep; assumption).
  rewrite IH; [exact Hsheet|].
  unfold unresolved. rewrite Hsheet. exact Hkey.
Qed.

(** X12.  Once a field holds a value other than 0 (and the type, once it
    is set), no later sheet changes it: the first sheet that resolves a
    field decides. *)
Theorem resolved_fields_are_kept (data : gmap string pyval)
    (sheets : list worksheet) (key : string) :
  unresolved data key = false ->
  foldl (scan_sheet false) data sheets !! key = data !! key
  /\ (forall (before after : list worksheet),
        sheets = before ++ after ->
        foldl (scan_sheet false) data sheets !! key
        = foldl (scan_sheet false) data before !! key).
Proof.
  intros Hkey. split; [apply resolved_fields_kept_by_sheets; assumption|].
  intros before after ->.
  rewrite !resolved_fields_kept_by_sheets by assumption. reflexivity.
Qed.

Lemma resolve_fields_other (ws : worksheet) (first : bool)
    (entries : list (string * list string)) (data : gmap string pyval)
    (key : string) :
  Forall (fun entry => entry.1 <> key) entries ->
  foldl (resolve_field ws first) data entries !! key = data !! key.
Proof.
  intros Hentries. revert data.
  induction Hentries as [|[key' patterns] entries Hne _ IH]; intros data;
    simpl; [reflexivity|].
  rewrite IH.
  apply (resolve_field_lookup ws first data key' patterns).
  simpl in Hne. congruence.
Qed.

Lemma resolve_fields_split (ws : worksheet) (first : bool)
    (before : list (string * list string)) (entry : string * list string)
    (after : list (string * list string)) (data : gmap string pyval) :
  foldl (resolve_field ws first) data (before ++ entry :: after)
  = foldl (resolve_field ws first)
      (resolve_field ws first (foldl (resolve_field ws first) data before)
         entry)
      after.
Proof. rewrite foldl_app. reflexivity. Qed.

(** X13.  On the first sheet the fixed cells come before the labels: a
    value that the probe returns becomes the rate of return of that sheet.
    If it is not 0 it is the rate of the workbook; if it is 0 and the
    workbook has no other sheet, the extraction fails for want of [irr],
    whatever the sheet labels. *)
Theorem irr_probe_precedence (wb : workbook) (value : Q) :
  irr_special_probe (first_sheet wb) = Some value ->
  scan_sheet true ∅ (first_sheet wb) !! "irr" = Some (PNum value)
  /\ (~ (value == 0)%Q -> scan_workbook wb !! "irr" = Some (PNum value))
  /\ ((value == 0)%Q -> other_sheets wb = [] ->
      extract_project_data wb
      = ValueError (missing_message (missing_fields (scan_workbook wb)))
      /\ "irr" ∈ missing_fields (scan_workbook wb)).
Proof.
  intros Hprobe.
  assert (Hfirst : scan_sheet true ∅ (first_sheet wb) !! "irr"
                   = Some (PNum value)).
  { unfold scan_sheet, search_patterns.
    set (ws := first_sheet wb) in *.
    match goal with
    | |- foldl _ _ (?e1 :: ?e2 :: ?e3 :: ?e4 :: ?e5 :: ?e6 :: ?e7 :: ?e8)
         !! _ = _ =>
        rewrite (resolve_fields_split ws true [e1; e2; e3; e4; e5; e6] e7 e8);
        set (data := foldl (resolve_field ws true) (resolve_type ws ∅)
                       [e1; e2; e3; e4; e5; e6])
    end.
    rewrite resolve_fields_other by (repeat constructor; discriminate).
    assert (Hdata : data !! "irr" = None).
    { subst data.
      rewrite resolve_fields_other by (repeat constructor; discriminate).
      rewrite resolve_type_others by discriminate. apply lookup_empty. }
    unfold resolve_field, unresolved. rewrite Hdata. cbn [negb].
    change (String.eqb "irr" "irr" && true) with true. cbv iota.
    rewrite Hprobe. apply lookup_insert_eq. }
  split; [exact Hfirst|]. split.
  - intros Hvalue. unfold scan_workbook.
    rewrite resolved_fields_kept_by_sheets; [exact Hfirst|].
    unfold unresolved. rewrite Hfirst. unfold is_zero.
    destruct (value =? 0)%num eqn:E; [|reflexivity].
    apply eqb_eq in E. contradiction.
  - intros Hvalue Hsingle.
    assert (Hscan : scan_workbook wb !! "irr" = Some (PNum value)).
    { unfold scan_workbook. rewrite Hsingle. exact Hfirst. }
    assert (Hin : "irr" ∈ missing_fields (scan_workbook wb)).
    { apply missing_fields_spec. split; [unfold required_fields; repeat constructor|].
      right. exists value. split; assumption. }
    split; [|exact Hin].
    unfold extract_project_data.
    destruct (missing_fields (scan_workbook wb)); [inversion Hin|].
    reflexivity.
Qed.

(** *** Sheets without a truthy cell *)

Lemma blank_cell (ws : worksheet) (r c : Z) (v : cell_value) :
  blank ws -> cell ws r c = Some v -> truthy v = false.
Proof.
  intros Hblank Hv. apply cell_inv in Hv.
  destruct Hv as (_ & _ & [-> | (cells & Hcells & Hlookup)]);
    [reflexivity|].
  unfold blank in Hblank. rewrite list.Forall_forall in Hblank.
  assert (Hrow := Hblank cells ltac:(apply list_elem_of_lookup; eauto)).
  rewrite list.Forall_forall in Hrow. apply Hrow.
  apply list_elem_of_lookup. eauto.
Qed.

Lemma blank_find (ws : worksheet) (search_text : string)
    (case_sensitive : bool) :
  blank ws -> find_cell_by_text ws search_text case_sensitive = None.
Proof.
  intros Hblank.
  destruct (find_cell_by_text ws search_text case_sensitive)
    as [[row col]|] eqn:Hfind; [|reflexivity].
  apply find_cell_by_text_Some in Hfind.
  destruct Hfind as (v & Hv & Htruthy & _).
  rewrite (blank_cell ws row col v Hblank Hv) in Htruthy. discriminate.
Qed.

Lemma falsy_reading_zero (v : cell_value) (x : Q) :
  truthy v = false -> py_float v = Some x -> (x == 0)%Q.
Proof.
  destruct v as [|b|n|q|s]; simpl.
  - discriminate.
  - intros -> [= <-]. reflexivity.
  - intros Hn [= <-]. apply negb_false_iff, Z.eqb_eq in Hn. subst n.
    reflexivity.
  - intros Hq [= <-]. apply negb_false_iff, eqb_eq in Hq. assumption.
  - intros Hs. apply negb_false_iff, String.eqb_eq in Hs. subst s.
    discriminate.
Qed.

Lemma falsy_no_embedded (v : cell_value) (signed : bool) :
  truthy v = false -> embedded_number signed v = None.
Proof.
  destruct v as [|b|n|q|s]; try reflexivity.
  simpl. intros Hs. apply negb_false_iff, String.eqb_eq in Hs. subst s.
  destruct signed; reflexivity.
Qed.

Lemma accepted_zero (x value : Q) :
  (x == 0)%Q ->
  (if (0 <=? x)%num && (x <=? 100)%num then Some x else None) = Some value
  -> (value == 0)%Q.
Proof.
  intros Hx. destruct (_ && _); [|discriminate]. intros [= <-]. assumption.
Qed.

Lemma blank_probe (ws : worksheet) (value : Q) :
  blank ws -> irr_special_probe ws = Some value -> (value == 0)%Q.
Proof.
  intros Hblank. unfold irr_special_probe.
  assert (Hprimary : forall v x, truthy v = false ->
                       irr_primary v = Some x -> (x == 0)%Q).
  { intros v x Hv. unfold irr_primary.
    rewrite (falsy_no_embedded v false Hv).
    destruct v; [discriminate|..];
      (destruct (py_float _) as [y|] eqn:Hy; [|discriminate]);
      apply (falsy_reading_zero _ y Hv) in Hy; cbv zeta;
      (destruct ((0 <=? y)%num && (y <? 1)%num);
       [apply accepted_zero; rewrite Hy; reflexivity
       | apply accepted_zero; assumption]). }
  assert (Halt : forall v x, truthy v = false ->
                   irr_alternative v = Some x -> (x == 0)%Q).
  { intros v x Hv. unfold irr_alternative.
    rewrite (falsy_no_embedded v false Hv).
    destruct v; [discriminate|..];
      (destruct (py_float _) as [y|] eqn:Hy; [|discriminate]);
      apply (falsy_reading_zero _ y Hv) in Hy;
      apply accepted_zero; assumption. }
  destruct (cell ws 15 5) as [v|] eqn:H155; cbn [mbind option_bind].
  - destruct (irr_primary v) as [x|] eqn:Hx.
    + intros [= <-]. apply (Hprimary v x); [|assumption].
      apply (blank_cell ws 15 5 v Hblank H155).
    + cbn [first_some].
      destruct (cell ws 15 4) as [v4|] eqn:H154; cbn [mbind option_bind].
      * destruct (irr_alternative v4) as [x|] eqn:Hx4.
        -- intros [= <-]. apply (Halt v4 x); [|assumption].
           apply (blank_cell ws 15 4 v4 Hblank H154).
        -- destruct (cell ws 16 4) as [v5|] eqn:H164;
             cbn [mbind option_bind]; [|discriminate].
           destruct (irr_alternative v5) as [x|] eqn:Hx5; [|discriminate].
           intros [= <-]. apply (Halt v5 x); [|assumption].
           apply (blank_cell ws 16 4 v5 Hblank H164).
      * discriminate.
  - discriminate.
Qed.

Lemma blank_value_at_pattern (ws : worksheet) (patterns : list string) :
  blank ws -> first_some (value_at_pattern ws) patterns = None.
Proof.
  intros Hblank. apply first_some_None. apply list.Forall_forall.
  intros pattern _. unfold value_at_pattern.
  rewrite blank_find by assumption. reflexivity.
Qed.

Lemma blank_resolve_field (ws : worksheet) (first : bool)
    (data : gmap string pyval) (entry : string * list string) :
  blank ws -> entry.1 <> "type" -> zero_numbers data ->
  zero_numbers (resolve_field ws first data entry).
Proof.
  intros Hblank Hentry Hdata. destruct entry as [key patterns].
  simpl in Hentry. unfold resolve_field.
  destruct (unresolved data key); cbn [negb]; [|assumption].
  rewrite blank_value_at_pattern by assumption.
  assert (Hinsert : forall x, (x == 0)%Q ->
                      zero_numbers (<[key := PNum x]> data)).
  { intros x Hx key' v Htype Hv.
    destruct (decide (key = key')) as [<-|Hne].
    - rewrite lookup_insert_eq in Hv. injection Hv as <-.
      apply eqb_eq. assumption.
    - rewrite lookup_insert_ne in Hv by assumption.
      apply (Hdata key' v Htype Hv). }
  destruct (if String.eqb key "irr" && first then irr_special_probe ws
            else None) as [x|] eqn:Hprobe.
  - apply Hinsert. destruct (String.eqb key "irr" && first);
      [|discriminate]. apply (blank_probe ws x Hblank Hprobe).
  - destruct (data !! key); [assumption|]. apply Hinsert. reflexivity.
Qed.

Lemma blank_scan_sheet (first : bool) (data : gmap string pyval)
    (ws : worksheet) :
  blank ws -> zero_numbers data -> zero_numbers (scan_sheet first data ws).
Proof.
  intros Hblank Hdata. unfold scan_sheet.
  set (data0 := if first then resolve_type ws data else data).
  assert (Hdata0 : zero_numbers data0).
  { subst data0. destruct first; [|assumption].
    intros key v Htype Hv. rewrite resolve_type_others in Hv by assumption.
    apply (Hdata key v Htype Hv). }
  clearbody data0. revert data0 Hdata0.
  pose proof search_patterns_keys as Hkeys.
  induction Hkeys as [|entry entries Hentry _ IH]; intros data0 Hdata0;
    simpl; [assumption|].
  apply IH. apply blank_resolve_field; assumption.
Qed.

(** X14.  A workbook none of whose sheets holds a truthy cell (empty
    cells, empty strings, zeros, [False]) is refused, and the message
    names the three required fields. *)
Theorem extract_project_data_blank (wb : workbook) :
  blank (first_sheet wb) ->
  Forall blank (other_sheets wb) ->
  extract_project_data wb
  = ValueError (missing_message ["npv"; "irr"; "payback_period"]).
Proof.
  intros Hfirst Hothers.
  assert (Hzero : zero_numbers (scan_workbook wb)).
  { unfold scan_workbook.
    assert (H0 : zero_numbers (scan_sheet true ∅ (first_sheet wb))).
    { apply blank_scan_sheet; [assumption|].
      intros key v _ Hv. rewrite lookup_empty in Hv. discriminate. }
    revert H0. generalize (scan_sheet true ∅ (first_sheet wb)).
    induction Hothers as [|ws sheets Hws _ IH]; intros data Hdata; simpl;
      [assumption|].
    apply IH. apply blank_scan_sheet; assumption. }
  assert (Hun : forall key, key <> "type" ->
                  unresolved (scan_workbook wb) key = true).
  { intros key Htype. unfold unresolved.
    destruct (scan_workbook wb !! key) as [v|] eqn:Hv; [|reflexivity].
    apply (Hzero key v Htype Hv). }
  unfold extract_project_data, missing_fields, required_fields.
  cbn [List.filter].
  rewrite !Hun by discriminate. reflexivity.
Qed.

End Scanning.

(** The witness of X12: the net present value 5 is kept although the next
    sheet labels another one. *)
Lemma resolved_fields_are_kept_witness :
  ExcelReader.unresolved (<["npv" := PNum 5]> ∅) "npv" = false
  /\ foldl (@ExcelReader.scan_sheet Sample.ascii_text false)
       (<["npv" := PNum 5]> ∅) [ExcelStatements.second_npv] !! "npv"
     = (<["npv" := PNum 5]> ∅ : gmap string pyval) !! "npv"
  /\ @ExcelReader.scan_sheet Sample.ascii_text false ∅
       ExcelStatements.second_npv !! "npv" = Some (PNum 7).
Proof.
  assert (H : ExcelReader.unresolved (<["npv" := PNum 5]> ∅) "npv" = false)
    by (vm_compute; reflexivity).
  split; [exact H|]. split; [|vm_compute; reflexivity].
  exact (proj1 (@resolved_fields_are_kept Sample.ascii_text
                  (<["npv" := PNum 5]> ∅) [ExcelStatements.second_npv]
                  "npv" H)).
Defined.

(** The witness of X13: E15 holds 0, and the rate 15 that the sheet labels
    is not read. *)
Lemma irr_probe_precedence_witness :
  ExcelReader.irr_special_probe
    (ExcelReader.first_sheet ExcelStatements.zero_in_E15) = Some 0%Q
  /\ @ExcelReader.value_at_pattern Sample.ascii_text
       (ExcelReader.first_sheet ExcelStatements.zero_in_E15) "irr"
     = Some 15%Q
  /\ @ExcelReader.extract_project_data Sample.ascii_text
       ExcelStatements.zero_in_E15
     = ExcelReader.ValueError (ExcelReader.missing_message ["irr"]).
Proof.
  assert (H : ExcelReader.irr_special_probe
                (ExcelReader.first_sheet ExcelStatements.zero_in_E15)
              = Some 0%Q) by reflexivity.
  split; [exact H|]. split; [reflexivity|].
  rewrite (proj1 (proj2 (proj2
    (@irr_probe_precedence Sample.ascii_text ExcelStatements.zero_in_E15
       0%Q H)) ltac:(reflexivity) eq_refl)).
  reflexivity.
Defined.

(** The witness of X14. *)
Lemma extract_project_data_blank_witness :
  ExcelStatements.blank
    (ExcelReader.first_sheet ExcelStatements.blank_workbook)
  /\ @ExcelReader.extract_project_data Sample.ascii_text
       ExcelStatements.blank_workbook
     = ExcelReader.ValueError
         (ExcelReader.missing_message ["npv"; "irr"; "payback_period"]).
Proof.
  assert (H : ExcelStatements.blank
                (ExcelReader.first_sheet ExcelStatements.blank_workbook))
    by (repeat constructor).
  split; [exact H|].
  apply (@extract_project_data_blank Sample.ascii_text
           ExcelStatements.blank_workbook H).
  repeat constructor.
Defined.

Section ExtractedKeys.

Import ExcelReader Statements ExcelStatements.

Context {text_builtins : PyText}.

Lemma probe_project_types_type (ws : worksheet)
    (data : gmap string pyval) (last : option (Z * Z))
    (project_types : list string) :
  (probe_project_types ws data last project_types).2 !! "type"
  = data !! "type"
  \/ exists t : string,
       (probe_project_types ws data last project_types).2 !! "type"
       = Some (PStr t).
Proof.
  revert last. induction project_types as [|t rest IH]; intros last;
    simpl; [left; reflexivity|].
  destruct (find_cell_by_text ws t false) as [[row col]|]; [|apply IH].
  destruct (cell ws row col) as [[| | | |s]|]; try apply IH.
  destruct (negb _); [|apply IH].
  right. exists (strip s). simpl. apply lookup_insert_eq.
Qed.

Lemma probe_type_neighbours_type (ws : worksheet)
    (data : gmap string pyval) (row col : Z) (offsets : list Z) :
  probe_type_neighbours ws data row col offsets !! "type" = data !! "type"
  \/ exists t : string,
       probe_type_neighbours ws data row col offsets !! "type"
       = Some (PStr t).
Proof.
  induction offsets as [|offset rest IH]; simpl; [left; reflexivity|].
  destruct (cell ws row (col + offset)) as [[| | | |s]|]; try apply IH.
  destruct (_ && _); [|apply IH].
  destruct (bool_decide _); [|apply IH].
  right. exists (strip s). apply lookup_insert_eq.
Qed.

Lemma resolve_type_empty (ws : worksheet) :
  exists t : string, resolve_type ws ∅ !! "type" = Some (PStr t).
Proof.
  unfold resolve_type.
  set (found := find_cell_by_text ws "тип проекта" false).
  set (probed := match found with
                 | Some _ => (found, ∅)
                 | None => probe_project_types ws ∅ found _
                 end).
  assert (Hprobed : probed.2 !! "type" = None
                    \/ exists t, probed.2 !! "type" = Some (PStr t)).
  { subst probed. destruct found; [left; apply lookup_empty|].
    destruct (probe_project_types_type ws ∅ None
                ["метро"; "дорога"; "энергетика"; "мост"; "тоннель"])
      as [H | H]; [left; rewrite H; apply lookup_empty | right; exact H]. }
  destruct probed as [cell1 data1]. simpl in Hprobed.
  set (data2 := match cell1, data1 !! "type" with
                | Some (row, col), None => _
                | _, _ => data1
                end).
  assert (Hdata2 : data2 !! "type" = None
                   \/ exists t, data2 !! "type" = Some (PStr t)).
  { subst data2. destruct cell1 as [[row col]|]; [|assumption].
    destruct (data1 !! "type") eqn:Htype;
      [rewrite Htype; exact Hprobed|].
    destruct (probe_type_neighbours_type ws data1 row col [1; 2; -1; -2]%Z)
      as [H | H];
      [left; transitivity (data1 !! "type"); [exact H | exact Htype]
      | right; exact H]. }
  destruct Hdata2 as [Hnone | [t Ht]].
  - rewrite Hnone. exists "Не указан". apply lookup_insert_eq.
  - rewrite Ht. exists t. assumption.
Qed.

Lemma resolve_fields_stored (ws : worksheet) (first : bool)
    (entries : list (string * list string)) (data : gmap string pyval)
    (key : string) :
  is_Some (foldl (resolve_field ws first) data entries !! key) ->
  Exists (fun entry => entry.1 = key) entries \/ is_Some (data !! key).
Proof.
  revert data. induction entries as [|[key' patterns] entries IH];
    intros data; simpl; [auto|].
  intros Hkey. destruct (IH _ Hkey) as [Hlater | Hnow].
  - left. apply Exists_cons_tl. assumption.
  - destruct (decide (key = key')) as [->|Hne].
    + left. apply Exists_cons_hd. reflexivity.
    + right.
      destruct (resolve_field_lookup ws first data key' patterns)
        as [Hothers _].
      destruct Hnow as [v Hv]. exists v.
      transitivity (resolve_field ws first data (key', patterns) !! key);
        [symmetry; exact (Hothers key Hne) | exact Hv].
Qed.

Lemma search_patterns_data_keys (key : string) :
  Exists (fun entry : string * list string => entry.1 = key)
    search_patterns ->
  key ∈ data_keys /\ key <> "type".
Proof.
  unfold search_patterns, data_keys. intros H.
  repeat match goal with
         | H : Exists _ (_ :: _) |- _ =>
             apply Exists_cons in H; destruct H as [H | H];
             [simpl in H; subst key;
              split; [repeat constructor | discriminate]|]
         end.
  inversion H.
Qed.

Lemma scan_sheet_stored (first : bool) (data : gmap string pyval)
    (ws : worksheet) (key : string) :
  is_Some (scan_sheet first data ws !! key) ->
  key ∈ data_keys \/ is_Some (data !! key).
Proof.
  unfold scan_sheet. intros Hkey.
  apply resolve_fields_stored in Hkey. destruct Hkey as [Hkey | Hkey].
  - left. apply search_patterns_data_keys. assumption.
  - destruct first; [|auto].
    destruct (decide (key = "type")) as [->|Hne].
    + left. unfold data_keys. constructor.
    + right. rewrite resolve_type_others in Hkey; assumption.
Qed.

Lemma scan_workbook_type (wb : workbook) :
  exists t : string,
    scan_workbook wb !! "type" = Some (PStr t)
    /\ resolve_type (first_sheet wb) ∅ !! "type" = Some (PStr t).
Proof.
  destruct (resolve_type_empty (first_sheet wb)) as [t Ht].
  assert (Hfirst : scan_sheet true ∅ (first_sheet wb) !! "type"
                   = Some (PStr t)).
  { unfold scan_sheet.
    rewrite resolve_fields_other; [exact Ht|].
    apply search_patterns_keys. }
  exists t. split; [|exact Ht].
  unfold scan_workbook. rewrite resolved_fields_kept_by_sheets;
    [exact Hfirst|].
  unfold unresolved. rewrite Hfirst. reflexivity.
Qed.

Lemma scan_workbook_numbers (wb : workbook) (key : string) :
  key ∈ data_keys -> key <> "type" -> numeric (scan_workbook wb) key.
Proof.
  intros Hkey Hne.
  destruct (scan_workbook_numeric wb) as [_ Hall].
  unfold search_patterns in Hall.
  repeat match goal with
         | H : Forall _ (_ :: _) |- _ =>
             apply Forall_cons in H; destruct H as [? H]
         end.
  unfold data_keys in Hkey. cbn [fst] in *.
  repeat (apply elem_of_cons in Hkey as [-> | Hkey]);
    try assumption; try (contradiction Hne; reflexivity).
  inversion Hkey.
Qed.

Lemma scan_workbook_stored (wb : workbook) (key : string) :
  is_Some (scan_workbook wb !! key) <-> key ∈ data_keys.
Proof.
  split.
  - unfold scan_workbook.
    assert (Hstart : forall key,
               is_Some (scan_sheet true ∅ (first_sheet wb) !! key) ->
               key ∈ data_keys).
    { intros key' H. apply scan_sheet_stored in H.
      destruct H as [H | [v H]]; [assumption|].
      rewrite lookup_empty in H. discriminate. }
    revert Hstart. generalize (scan_sheet true ∅ (first_sheet wb)).
    induction (other_sheets wb) as [|ws sheets IH]; intros data Hdata;
      simpl; [apply Hdata|].
    apply IH. intros key' H. apply scan_sheet_stored in H.
    destruct H as [H | H]; [assumption | apply Hdata; assumption].
  - intros Hkey. destruct (decide (key = "type")) as [->|Hne].
    + destruct (scan_workbook_type wb) as (t & Ht & _). rewrite Ht. eauto.
    + destruct (scan_workbook_numbers wb key Hkey Hne) as [q Hq].
      rewrite Hq. eauto.
Qed.

Lemma extracted_scan (wb : workbook) (data : gmap string pyval) :
  extract_project_data wb = Extracted data -> data = scan_workbook wb.
Proof.
  unfold extract_project_data.
  destruct (missing_fields _); [|discriminate].
  intros [= <-]. reflexivity.
Qed.

(** X15.  The data of a scanned workbook holds the nine keys and no other.
    The type is a string, fixed by the first sheet; the eight other
    entries are numbers. *)
Theorem scan_workbook_keys (wb : workbook) :
  (forall key : string,
     is_Some (scan_workbook wb !! key) <-> key ∈ data_keys)
  /\ (exists t : string,
        scan_workbook wb !! "type" = Some (PStr t)
        /\ resolve_type (first_sheet wb) ∅ !! "type" = Some (PStr t))
  /\ (forall key : string,
        key ∈ data_keys -> key <> "type" ->
        numeric (scan_workbook wb) key).
Proof.
  split; [apply scan_workbook_stored|].
  split; [apply scan_workbook_type | apply scan_workbook_numbers].
Qed.

End ExtractedKeys.

(** ** The two dictionaries of the handler *)

Section Split.

Import RiskCalculator Statements ExcelStatements FileHandler.

(** What the merged dictionary holds under a key. *)
Lemma merged_lookup (project_data : gmap string pyval) (key : string) :
  key ∈ data_keys ->
  (model_results project_data ∪ project_params project_data) !! key
  = Some (get project_data key
            (if bool_decide (key = "type") then PStr "Не указан"
             else PNum 0)).
Proof.
  unfold data_keys. intros Hkey. rewrite lookup_union.
  unfold model_results, project_params.
  repeat (apply elem_of_cons in Hkey as [-> | Hkey]);
    try (rewrite ?lookup_insert_ne by discriminate;
         rewrite ?lookup_insert_eq, ?lookup_empty;
         rewrite ?lookup_insert_ne by discriminate;
         rewrite ?lookup_insert_eq, ?lookup_empty; reflexivity).
  inversion Hkey.
Qed.

Lemma merged_lookup_other (project_data : gmap string pyval) (key : string) :
  key ∉ data_keys ->
  (model_results project_data ∪ project_params project_data) !! key = None.
Proof.
  unfold data_keys. intros Hkey. rewrite lookup_union.
  unfold model_results, project_params.
  rewrite !lookup_insert_ne, !lookup_empty; [reflexivity|..];
    intros <-; apply Hkey; repeat constructor.
Qed.

Lemma get_number_split (project_data : gmap string pyval) (key : string) :
  key ∈ numeric_keys ->
  get_number (model_results project_data ∪ project_params project_data) key
  = get_number project_data key.
Proof.
  intros Hkey. unfold get_number. rewrite merged_lookup.
  - rewrite bool_decide_eq_false_2.
    + unfold get. destruct (project_data !! key) as [[]|]; reflexivity.
    + intros ->. unfold numeric_keys in Hkey.
      repeat (apply elem_of_cons in Hkey as [Hkey | Hkey];
              [discriminate|]).
      inversion Hkey.
  - unfold numeric_keys in Hkey. unfold data_keys.
    repeat (apply elem_of_cons in Hkey as [-> | Hkey];
            [repeat constructor|]).
    inversion Hkey.
Qed.

(** X16.  Whatever the project data are, the fallback computed from the
    two dictionaries of the handler, merged again by
    [analyze_risks_with_fallback], is the fallback computed from the project
    data themselves: the defaults of the split are those of the scorer. *)
Theorem calculate_risk_fallback_split (project_data : gmap string pyval) :
  calculate_risk_fallback
    (model_results project_data ∪ project_params project_data)
  = calculate_risk_fallback project_data.
Proof.
  apply calculate_risk_fallback_ext. intros key Hkey.
  apply get_number_split. assumption.
Qed.

End Split.

(** ** From the workbook to the request *)

Section Pipeline.

Import ExcelReader RiskCalculator Statements ExcelStatements FileHandler.
Import AiClient.
Context {text_builtins : PyText}.

Variable round2 : Q -> Q.
Variable str_of : pyval -> string.
Variable json_dumps : gmap string pyval -> string.
Variable md5 : string -> N.

Lemma extracted_get (wb : workbook) (data : gmap string pyval)
    (key : string) (value : pyval) :
  extract_project_data wb = Extracted data ->
  key ∈ data_keys ->
  data !! key = Some (FileHandler.get data key value)
  /\ (key <> "type" -> exists q : Q, FileHandler.get data key value = PNum q).
Proof.
  intros Hdata Hkey. apply extracted_scan in Hdata. subst data.
  unfold FileHandler.get.
  destruct (proj2 (scan_workbook_stored wb key) Hkey) as [v Hv].
  split.
  - transitivity (Some v); [exact Hv|]. f_equal.
    destruct (scan_workbook wb !! key) eqn:E; simpl;
      congruence.
  - intros Hne. destruct (scan_workbook_numbers wb key Hkey Hne) as [q Hq].
    exists q. 
    destruct (scan_workbook wb !! key) eqn:E; simpl; congruence.
Qed.

(** X17.  On the data of a successful extraction the split loses and adds
    nothing: the two dictionaries merged again are the extracted data, no
    default of the split being used. *)
Theorem extracted_data_split (wb : workbook) (data : gmap string pyval) :
  extract_project_data wb = Extracted data ->
  model_results data ∪ project_params data = data.
Proof.
  intros Hdata. apply map_eq. intros key.
  destruct (decide (key ∈ data_keys)) as [Hkey | Hkey].
  - rewrite merged_lookup by assumption. symmetry.
    apply (extracted_get wb); assumption.
  - rewrite merged_lookup_other by assumption. symmetry.
    apply eq_None_not_Some. intros Hsome. apply Hkey.
    apply extracted_scan in Hdata. subst data.
    apply (scan_workbook_stored wb). assumption.
Qed.

Lemma project_params_lookup (project_data : gmap string pyval) (key : string) :
  key ∈ param_keys ->
  project_params project_data !! key
  = Some (FileHandler.get project_data key (PNum 0)).
Proof.
  unfold param_keys, project_params. intros Hkey.
  repeat (apply elem_of_cons in Hkey as [-> | Hkey]);
    try (rewrite ?lookup_insert_ne by discriminate;
         rewrite lookup_insert_eq; reflexivity).
  inversion Hkey.
Qed.

Lemma model_results_lookup (project_data : gmap string pyval) (key : string) :
  key ∈ result_keys ->
  model_results project_data !! key
  = Some (FileHandler.get project_data key (PNum 0)).
Proof.
  unfold result_keys, model_results. intros Hkey.
  repeat (apply elem_of_cons in Hkey as [-> | Hkey]);
    try (rewrite ?lookup_insert_ne by discriminate;
         rewrite lookup_insert_eq; reflexivity).
  inversion Hkey.
Qed.

Lemma extracted_normalized (wb : workbook) (data : gmap string pyval)
    (key : string) :
  extract_project_data wb = Extracted data ->
  (key ∈ param_keys ->
   is_Some (normalized round2 (project_params data) key))
  /\ (key ∈ result_keys ->
      is_Some (normalized round2 (model_results data) key)).
Proof.
  intros Hdata. unfold normalized, get_float. split; intros Hkey.
  - rewrite project_params_lookup by assumption. simpl.
    destruct (extracted_get wb data key (PNum 0) Hdata) as [_ Hnum].
    { unfold param_keys in Hkey. unfold data_keys.
      repeat (apply elem_of_cons in Hkey as [-> | Hkey];
              [repeat constructor|]).
      inversion Hkey. }
    destruct Hnum as [q ->]; [|simpl; eauto].
    intros ->. unfold param_keys in Hkey.
    repeat (apply elem_of_cons in Hkey as [Hkey | Hkey]; [discriminate|]).
    inversion Hkey.
  - rewrite model_results_lookup by assumption. simpl.
    destruct (extracted_get wb data key (PNum 0) Hdata) as [_ Hnum].
    { unfold result_keys in Hkey. unfold data_keys.
      repeat (apply elem_of_cons in Hkey as [-> | Hkey];
              [repeat constructor|]).
      inversion Hkey. }
    destruct Hnum as [q ->]; [|simpl; eauto].
    intros ->. unfold result_keys in Hkey.
    repeat (apply elem_of_cons in Hkey as [Hkey | Hkey]; [discriminate|]).
    inversion Hkey.
Qed.

(** X18.  For the data of a successful extraction the computation of the
    seed never raises, whatever the library functions return: the request
    is always sent, with a seed from 0 up to 2147483646. *)
Theorem extracted_data_seed (wb : workbook) (data : gmap string pyval) :
  extract_project_data wb = Extracted data ->
  exists seed : Z,
    request_seed round2 str_of json_dumps md5
      (project_params data) (model_results data) = Some seed
    /\ (0 <= seed < 2147483647)%Z.
Proof.
  intros Hdata. unfold request_seed, data_string.
  pose proof (fun key => proj1 (extracted_normalized wb data key Hdata))
    as Hparams.
  pose proof (fun key => proj2 (extracted_normalized wb data key Hdata))
    as Hresults.
  destruct (Hparams "capex") as [? ->]; [repeat constructor|].
  destruct (Hparams "construction_years") as [? ->]; [repeat constructor|].
  destruct (Hparams "debt_share") as [? ->]; [repeat constructor|].
  destruct (Hparams "debt_rate") as [? ->]; [repeat constructor|].
  destruct (Hparams "discount_rate") as [? ->]; [repeat constructor|].
  destruct (Hresults "npv") as [? ->]; [repeat constructor|].
  destruct (Hresults "irr") as [? ->]; [repeat constructor|].
  destruct (Hresults "payback_period") as [? ->]; [repeat constructor|].
  cbn [mbind option_bind].
  rewrite first8_hexdigest. cbn [mbind option_bind].
  eexists. split; [reflexivity|].
  apply Z.mod_pos_bound. lia.
Qed.

End Pipeline.

(** The workbook of [Sample] with the three required values. *)
Lemma extracted_data_split_witness :
  @ExcelReader.extract_project_data Sample.ascii_text Sample.required_only
  = ExcelReader.Extracted
      (@ExcelReader.scan_workbook Sample.ascii_text Sample.required_only)
  /\ FileHandler.model_results
       (@ExcelReader.scan_workbook Sample.ascii_text Sample.required_only)
     ∪ FileHandler.project_params
         (@ExcelReader.scan_workbook Sample.ascii_text Sample.required_only)
     = @ExcelReader.scan_workbook Sample.ascii_text Sample.required_only.
Proof.
  assert (H : @ExcelReader.extract_project_data Sample.ascii_text
                Sample.required_only
              = ExcelReader.Extracted
                  (@ExcelReader.scan_workbook Sample.ascii_text
                     Sample.required_only))
    by (vm_compute; reflexivity).
  split; [exact H|].
  exact (@extracted_data_split Sample.ascii_text Sample.required_only _ H).
Defined.

Lemma extracted_data_seed_witness :
  @ExcelReader.extract_project_data Sample.ascii_text Sample.required_only
  = ExcelReader.Extracted
      (@ExcelReader.scan_workbook Sample.ascii_text Sample.required_only)
  /\ exists seed : Z,
       AiClient.request_seed Sample.round2 Sample.str_of Sample.dumps
         Sample.checksum
         (FileHandler.project_params
            (@ExcelReader.scan_workbook Sample.ascii_text
               Sample.required_only))
         (FileHandler.model_results
            (@ExcelReader.scan_workbook Sample.ascii_text
               Sample.required_only)) = Some seed
       /\ (0 <= seed < 2147483647)%Z.
Proof.
  assert (H : @ExcelReader.extract_project_data Sample.ascii_text
                Sample.required_only
              = ExcelReader.Extracted
                  (@ExcelReader.scan_workbook Sample.ascii_text
                     Sample.required_only))
    by (vm_compute; reflexivity).
  split; [exact H|].
  exact (@extracted_data_seed Sample.ascii_text Sample.round2 Sample.str_of
           Sample.dumps Sample.checksum Sample.required_only _ H).
Defined.

(** ** The reply of the service *)

Section Reply.

Import RiskCalculator Statements AiClient AiReply ReplyStatements.

Variable round2 : Q -> Q.
Variable str_of : pyval -> string.
Variable json_dumps : gmap string pyval -> string.
Variable md5 : string -> N.
Variable json_loads : string -> option jsonval.
Variable repr : jsonval -> string.

Lemma set_default_union (key : string) (value : jsonval)
    (result : gmap string jsonval) :
  set_default key value result = result ∪ {[ key := value ]}.
Proof.
  unfold set_default. destruct (bool_decide_reflect (is_Some (result !! key)))
    as [[v Hv] | Hnone].
  - apply map_eq. intros key'. rewrite lookup_union.
    destruct (decide (key' = key)) as [->|Hne].
    + rewrite Hv, lookup_singleton_eq. reflexivity.
    + rewrite lookup_singleton_ne by congruence.
      destruct (result !! key'); reflexivity.
  - apply eq_None_not_Some in Hnone.
    apply insert_union_singleton_r. assumption.
Qed.

Lemma backfill_defaults (result : gmap string jsonval) :
  backfill result = result ∪ defaults.
Proof.
  unfold backfill, defaults. rewrite !set_default_union.
  rewrite !insert_union_singleton_l.
  rewrite (right_id_L ∅ (∪)). rewrite <- !(assoc_L (∪)). reflexivity.
Qed.

(** X19.  The six conditional assignments of lines 208-220 amount to the
    union of the reply with the six defaults, the reply coming first: a
    member of the reply is never overwritten, and a key that the reply
    lacks gets its default, or nothing when it is none of the six. *)
Theorem backfill_union (result : gmap string jsonval) :
  backfill result = result ∪ defaults
  /\ (forall (key : string) (v : jsonval),
        result !! key = Some v -> backfill result !! key = Some v)
  /\ (forall key : string,
        result !! key = None -> backfill result !! key = defaults !! key).
Proof.
  split; [apply backfill_defaults|].
  split; intros key; rewrite backfill_defaults, lookup_union.
  - intros v ->. destruct (defaults !! key); reflexivity.
  - intros ->. destruct (defaults !! key); reflexivity.
Qed.

Lemma complete_Returned (result : jsonval) (reply : gmap string jsonval) :
  complete result = Returned reply ->
  exists members : gmap string jsonval,
    result = JObj members /\ is_Some (members !! "risk_level")
    /\ reply = backfill members.
Proof.
  unfold complete. destruct result as [| | | | |members]; try discriminate.
  cbn. destruct (bool_decide_reflect (is_Some (members !! "risk_level")))
    as [Hlevel|]; [|discriminate].
  cbn. intros [= <-]. eauto.
Qed.

Lemma backfill_keys (members : gmap string jsonval) :
  is_Some (members !! "risk_level") ->
  Forall (fun key => is_Some (backfill members !! key)) reply_keys.
Proof.
  intros Hlevel. rewrite backfill_defaults. unfold reply_keys.
  repeat apply Forall_cons_2; try apply Forall_nil_2;
    apply lookup_union_is_Some;
    first [left; assumption | right; vm_compute; eauto].
Qed.

(** X20.  When [analyze_risks] returns, the seed was computed, the POST
    answered with status 200 and a JSON body, that body gave (directly, or
    as the content of its first choice) an object with a ["risk_level"],
    and the result is this object completed by the defaults, so that it
    holds the seven keys. *)
Theorem analyze_risks_returns (project_params model_results : gmap string pyval)
    (post : outcome response) (result : gmap string jsonval) :
  analyze_risks round2 str_of json_dumps md5 json_loads repr
    project_params model_results post = Returned result ->
  exists (r : response) (api_response : jsonval)
         (members : gmap string jsonval),
    is_Some (request_seed round2 str_of json_dumps md5
               project_params model_results)
    /\ post = Returned r
    /\ status_code r = 200%Z
    /\ json r = Returned api_response
    /\ read_reply json_loads api_response = Returned (JObj members)
    /\ is_Some (members !! "risk_level")
    /\ result = members ∪ defaults
    /\ Forall (fun key => is_Some (result !! key)) reply_keys.
Proof.
  unfold analyze_risks.
  destruct (request_seed _ _ _ _ _ _) as [seed|]; [|discriminate].
  cbn. destruct post as [r|e]; [|destruct e as [| |[]|]; discriminate].
  cbn. unfold respond.
  destruct (status_code r =? 200)%Z eqn:Hstatus.
  - apply Z.eqb_eq in Hstatus. unfold ok.
    destruct (json r) as [api_response|e] eqn:Hjson;
      [|destruct e as [| |[]|]; discriminate].
    cbn. destruct (read_reply json_loads api_response) as [reply|e] eqn:Hreply;
      [|destruct e as [| |[]|]; discriminate].
    cbn. destruct (complete reply) as [result'|e] eqn:Hcomplete;
      [|destruct e as [| |[]|]; discriminate].
    intros [= <-].
    apply complete_Returned in Hcomplete.
    destruct Hcomplete as (members & -> & Hlevel & ->).
    exists r, api_response, members.
    repeat split; eauto using backfill_defaults.
    apply backfill_keys. assumption.
  - unfold bad_request.
    destruct (status_code r =? 400)%Z.
    + cbn. destruct (slice 500 _); [|discriminate]. cbn.
      destruct (contains "Invalid URL" _) as [[]|]; [| |discriminate]; cbn.
      * destruct (slice 200 _); discriminate.
      * destruct (contains "GET" _); [|discriminate]. cbn.
        destruct (slice 200 _); discriminate.
    + destruct (status_code r =? 500)%Z; [discriminate|].
      destruct (status_code r =? 503)%Z; discriminate.
Qed.


Lemma handle_messages {A : Type} (e e' : exn) :
  @handle A e = Raised e' ->
  e' = RequestException timeout_message
  \/ e' = RequestException unavailable_message
  \/ e' = RequestException unexpected_message.
Proof.
  unfold handle. destruct e as [| |[]|]; intros H; inversion H; auto.
Qed.

(** X21.  Whatever fails in [analyze_risks], the exception that leaves it
    is a [RequestException] with one of three fixed messages: neither the
    status, nor the error text of the service, nor a [ValueError] reaches
    the caller. *)
Theorem analyze_risks_raises (project_params model_results : gmap string pyval)
    (post : outcome response) (e : exn) :
  analyze_risks round2 str_of json_dumps md5 json_loads repr
    project_params model_results post = Raised e ->
  e = RequestException timeout_message
  \/ e = RequestException unavailable_message
  \/ e = RequestException unexpected_message.
Proof.
  unfold analyze_risks.
  destruct (_ ≫= _) as [result|e0]; [discriminate|].
  apply handle_messages.
Qed.

Lemma sliceable_slice (n : nat) (v : jsonval) :
  is_Some (slice n v) <-> sliceable v = true.
Proof.
  destruct v; cbn; split; intros H; eauto; try discriminate;
    destruct H; discriminate.
Qed.

Lemma sliceable_contains (key : string) (v : jsonval) :
  sliceable v = true -> is_Some (contains key v).
Proof. destruct v; cbn; intros H; eauto; discriminate. Qed.

(** X22.  Once the seed is computed, a response whose status is not 200
    always ends in the message that the service is unavailable, but for a
    status 400 whose error message is neither a string nor a list, which
    ends in the message of an unexpected error. *)
Theorem analyze_risks_status (project_params model_results : gmap string pyval)
    (r : response) :
  is_Some (request_seed round2 str_of json_dumps md5
             project_params model_results) ->
  status_code r <> 200%Z ->
  analyze_risks round2 str_of json_dumps md5 json_loads repr
    project_params model_results (Returned r)
  = Raised (RequestException
              (if (status_code r =? 400)%Z
                  && negb (sliceable (error_message r))
               then unexpected_message else unavailable_message)).
Proof.
  intros [seed Hseed] Hstatus. unfold analyze_risks. rewrite Hseed. cbn.
  unfold respond. apply Z.eqb_neq in Hstatus. rewrite Hstatus.
  destruct (status_code r =? 400)%Z; cbn.
  - unfold bad_request. cbn.
    destruct (sliceable (error_message r)) eqn:Hsliceable; cbn.
    + destruct (proj2 (sliceable_slice 500 _) Hsliceable) as [? ->]. cbn.
      destruct (sliceable_contains "Invalid URL" _ Hsliceable) as [[] ->];
        cbn.
      * destruct (proj2 (sliceable_slice 200 _) Hsliceable) as [? ->].
        reflexivity.
      * destruct (sliceable_contains "GET" _ Hsliceable) as [? ->]. cbn.
        destruct (proj2 (sliceable_slice 200 _) Hsliceable) as [? ->].
        reflexivity.
    + destruct (slice 500 (error_message r)) eqn:Hslice; [|reflexivity].
      assert (sliceable (error_message r) = true)
        by (apply (sliceable_slice 500); eauto).
      congruence.
  - destruct (status_code r =? 500)%Z; [reflexivity|].
    destruct (status_code r =? 503)%Z; reflexivity.
Qed.

(** X23.  A reply object whose ["choices"] is not empty is read through
    its first choice only: the other members of the object, a
    ["risk_level"] of its own among them, change nothing, and there is no
    return to the direct form when the choice cannot be read. *)
Theorem read_reply_envelope (members members' : gmap string jsonval)
    (choices : jsonval) :
  members !! "choices" = Some choices ->
  members' !! "choices" = Some choices ->
  nonempty choices = Some true ->
  read_reply json_loads (JObj members)
  = read_reply json_loads (JObj members')
  /\ read_reply json_loads (JObj members)
     = (choice ← lift (first choices);
        message ← lift (subscript choice "message");
        content ← lift (subscript message "content");
        loads json_loads content).
Proof.
  intros Hchoices Hchoices' Hnonempty.
  assert (Hread : forall m : gmap string jsonval,
             m !! "choices" = Some choices ->
             read_reply json_loads (JObj m)
             = (choice ← lift (first choices);
                message ← lift (subscript choice "message");
                content ← lift (subscript message "content");
                loads json_loads content)).
  { intros m Hm. unfold read_reply. cbn [contains subscript]. rewrite Hm.
    rewrite (bool_decide_eq_true_2 (is_Some (Some choices)))
      by (eexists; reflexivity).
    cbn [lift mbind outcome_bind]. rewrite Hnonempty.
    cbn [lift mbind outcome_bind]. reflexivity. }
  split; [|apply Hread; assumption].
  rewrite !Hread by assumption. reflexivity.
Qed.

End Reply.

(** A chat completion that wraps the reply of [ReplySample] beside a
    [risk_level] of its own: the result is the wrapped reply, completed. *)
Lemma analyze_risks_returns_witness :
  AiReply.analyze_risks Sample.round2 Sample.str_of Sample.dumps
    Sample.checksum ReplySample.loads ReplySample.repr
    Sample.params Sample.results (AiReply.Returned ReplySample.completion)
  = AiReply.Returned (ReplySample.low_risk ∪ ReplyStatements.defaults)
  /\ Forall (fun key =>
               is_Some ((ReplySample.low_risk ∪ ReplyStatements.defaults)
                          !! key))
       ReplyStatements.reply_keys.
Proof.
  assert (H : AiReply.analyze_risks Sample.round2 Sample.str_of Sample.dumps
                Sample.checksum ReplySample.loads ReplySample.repr
                Sample.params Sample.results
                (AiReply.Returned ReplySample.completion)
              = AiReply.Returned
                  (ReplySample.low_risk ∪ ReplyStatements.defaults))
    by (vm_compute; reflexivity).
  split; [exact H|].
  destruct (analyze_risks_returns Sample.round2 Sample.str_of Sample.dumps
              Sample.checksum ReplySample.loads ReplySample.repr
              Sample.params Sample.results _ _ H)
    as (r & api_response & members & _ & _ & _ & _ & _ & _ & _ & Hkeys).
  exact Hkeys.
Defined.

(** A POST that times out. *)
Lemma analyze_risks_raises_witness :
  AiReply.analyze_risks Sample.round2 Sample.str_of Sample.dumps
    Sample.checksum ReplySample.loads ReplySample.repr
    Sample.params Sample.results (AiReply.Raised AiReply.Timeout)
  = AiReply.Raised (AiReply.RequestException AiReply.timeout_message)
  /\ (AiReply.RequestException AiReply.timeout_message
      = AiReply.RequestException AiReply.timeout_message
      \/ AiReply.RequestException AiReply.timeout_message
         = AiReply.RequestException AiReply.unavailable_message
      \/ AiReply.RequestException AiReply.timeout_message
         = AiReply.RequestException AiReply.unexpected_message).
Proof.
  assert (H : AiReply.analyze_risks Sample.round2 Sample.str_of Sample.dumps
                Sample.checksum ReplySample.loads ReplySample.repr
                Sample.params Sample.results (AiReply.Raised AiReply.Timeout)
              = AiReply.Raised
                  (AiReply.RequestException AiReply.timeout_message))
    by (vm_compute; reflexivity).
  split; [exact H|].
  exact (analyze_risks_raises Sample.round2 Sample.str_of Sample.dumps
           Sample.checksum ReplySample.loads ReplySample.repr
           Sample.params Sample.results _ _ H).
Defined.

(** A response with the status 404. *)
Lemma analyze_risks_status_witness :
  is_Some (AiClient.request_seed Sample.round2 Sample.str_of Sample.dumps
             Sample.checksum Sample.params Sample.results)
  /\ AiReply.status_code ReplySample.not_found <> 200%Z
  /\ AiReply.analyze_risks Sample.round2 Sample.str_of Sample.dumps
       Sample.checksum ReplySample.loads ReplySample.repr
       Sample.params Sample.results (AiReply.Returned ReplySample.not_found)
     = AiReply.Raised
         (AiReply.RequestException
            (if (AiReply.status_code ReplySample.not_found =? 400)%Z
                && negb (ReplyStatements.sliceable
                           (AiReply.error_message ReplySample.not_found))
             then AiReply.unexpected_message
             else AiReply.unavailable_message)).
Proof.
  assert (Hseed : is_Some (AiClient.request_seed Sample.round2 Sample.str_of
                             Sample.dumps Sample.checksum Sample.params
                             Sample.results))
    by (vm_compute; eexists; reflexivity).
  assert (Hstatus : AiReply.status_code ReplySample.not_found <> 200%Z)
    by discriminate.
  split; [exact Hseed|]. split; [exact Hstatus|].
  exact (analyze_risks_status Sample.round2 Sample.str_of Sample.dumps
           Sample.checksum ReplySample.loads ReplySample.repr
           Sample.params Sample.results ReplySample.not_found Hseed Hstatus).
Defined.

(** The two envelopes of [ReplySample], which differ by the [risk_level]
    beside the choices. *)
Lemma read_reply_envelope_witness :
  ReplySample.envelope' !! "choices" = Some ReplySample.choices
  /\ ReplySample.envelope !! "choices" = Some ReplySample.choices
  /\ AiReply.nonempty ReplySample.choices = Some true
  /\ AiReply.read_reply ReplySample.loads (AiReply.JObj ReplySample.envelope')
     = AiReply.read_reply ReplySample.loads
         (AiReply.JObj ReplySample.envelope).
Proof.
  assert (H1 : ReplySample.envelope' !! "choices" = Some ReplySample.choices)
    by (vm_compute; reflexivity).
  assert (H2 : ReplySample.envelope !! "choices" = Some ReplySample.choices)
    by (vm_compute; reflexivity).
  assert (H3 : AiReply.nonempty ReplySample.choices = Some true)
    by reflexivity.
  split; [exact H1|]. split; [exact H2|]. split; [exact H3|].
  exact (proj1 (read_reply_envelope ReplySample.loads _ _ _ H1 H2 H3)).
Defined.

(** ** From the workbook to the risk analysis *)

Section EndToEnd.

Import ExcelReader RiskCalculator Statements ExcelStatements FileHandler.
Import AiClient AiReply.
Context {text_builtins : PyText}.

Variable round2 : Q -> Q.
Variable str_of : pyval -> string.
Variable json_dumps : gmap string pyval -> string.
Variable md5 : string -> N.
Variable json_loads : string -> option jsonval.
Variable repr : jsonval -> string.

Lemma calculate_risk_fallback_numeric (project_data : gmap string pyval) :
  numeric_entries project_data ->
  is_Some (calculate_risk_fallback project_data).
Proof.
  unfold numeric_entries, numeric_keys. intros Hall.
  repeat match goal with
         | H : Forall _ (_ :: _) |- _ =>
             apply Forall_cons in H; destruct H as [[? ?] H]
         end.
  unfold calculate_risk_fallback.
  repeat match goal with
         | H : get_number _ _ = Some _ |- _ => rewrite H; clear H
         end.
  cbn [mbind option_bind]. eauto.
Qed.

Lemma extracted_numeric_entries (wb : workbook) (data : gmap string pyval) :
  extract_project_data wb = Extracted data -> numeric_entries data.
Proof.
  intros Hdata. apply extracted_scan in Hdata. subst data.
  unfold numeric_entries. apply list.Forall_forall. intros key Hkey.
  destruct (scan_workbook_numbers wb key) as [q Hq].
  - unfold numeric_keys in Hkey. unfold data_keys.
    repeat (apply elem_of_cons in Hkey as [-> | Hkey];
            [repeat constructor|]).
    inversion Hkey.
  - intros ->. unfold numeric_keys in Hkey.
    repeat (apply elem_of_cons in Hkey as [Hkey | Hkey]; [discriminate|]).
    inversion Hkey.
  - unfold get_number.
    destruct (scan_workbook wb !! key) as [v|] eqn:E; [|eauto].
    assert (v = PNum q) as -> by congruence. eauto.
Qed.

(** X24.  For the data of a successful extraction
    [analyze_risks_with_fallback] always returns, whatever the POST gives:
    either the result of [analyze_risks] or, when that raised, the fallback
    analysis of the extracted data, which does not raise. *)
Theorem analyze_risks_with_fallback_extracted (wb : workbook)
    (data : gmap string pyval) (post : outcome response) :
  extract_project_data wb = Extracted data ->
  (exists result : gmap string jsonval,
     analyze_risks round2 str_of json_dumps md5 json_loads repr
       (project_params data) (model_results data) post = Returned result
     /\ analyze_risks_with_fallback round2 str_of json_dumps md5 json_loads
          repr (project_params data) (model_results data) post
        = Returned result)
  \/ (exists (e : exn) (fallback : gmap string pyval),
        analyze_risks round2 str_of json_dumps md5 json_loads repr
          (project_params data) (model_results data) post = Raised e
        /\ calculate_risk_fallback data = Some fallback
        /\ analyze_risks_with_fallback round2 str_of json_dumps md5
             json_loads repr (project_params data) (model_results data) post
           = Returned (of_pyval <$> fallback)).
Proof.
  intros Hdata. unfold analyze_risks_with_fallback.
  destruct (analyze_risks _ _ _ _ _ _ _ _ _) as [result|e].
  - left. eauto.
  - right.
    destruct (calculate_risk_fallback_numeric data) as [fallback Hfallback].
    { apply (extracted_numeric_entries wb). assumption. }
    exists e, fallback.
    rewrite (calculate_risk_fallback_ext
               (model_results data ∪ project_params data) data)
      by (apply get_number_split).
    rewrite Hfallback. auto.
Qed.

End EndToEnd.

(** The workbook of [Sample] with the three required values, and a POST
    that times out. *)
Lemma analyze_risks_with_fallback_extracted_witness :
  @ExcelReader.extract_project_data Sample.ascii_text Sample.required_only
  = ExcelReader.Extracted
      (@ExcelReader.scan_workbook Sample.ascii_text Sample.required_only)
  /\ exists fallback : gmap string pyval,
       RiskCalculator.calculate_risk_fallback
         (@ExcelReader.scan_workbook Sample.ascii_text Sample.required_only)
       = Some fallback
       /\ AiReply.analyze_risks_with_fallback Sample.round2 Sample.str_of
            Sample.dumps Sample.checksum ReplySample.loads ReplySample.repr
            (FileHandler.project_params
               (@ExcelReader.scan_workbook Sample.ascii_text
                  Sample.required_only))
            (FileHandler.model_results
               (@ExcelReader.scan_workbook Sample.ascii_text
                  Sample.required_only))
            (AiReply.Raised AiReply.Timeout)
          = AiReply.Returned (AiReply.of_pyval <$> fallback).
Proof.
  assert (H : @ExcelReader.extract_project_data Sample.ascii_text
                Sample.required_only
              = ExcelReader.Extracted
                  (@ExcelReader.scan_workbook Sample.ascii_text
                     Sample.required_only))
    by (vm_compute; reflexivity).
  split; [exact H|].
  destruct (@analyze_risks_with_fallback_extracted Sample.ascii_text
              Sample.round2 Sample.str_of Sample.dumps Sample.checksum
              ReplySample.loads ReplySample.repr Sample.required_only _
              (AiReply.Raised AiReply.Timeout) H)
    as [(result & Hresult & _) | (e & fallback & _ & Hfallback & Hreturned)].
  - exfalso. vm_compute in Hresult. discriminate Hresult.
  - exists fallback. split; [exact Hfallback | exact Hreturned].
Defined.

(** ** The message cut in two *)

Section MessageParts.

Import Messages.
Context {char : Type} `{EqDecision char}.
Variable newline : char.
Variable is_space : char -> bool.

Lemma rfind_bounds (c : char) (s : list char) :
  (-1 <= rfind c s < Z.of_nat (length s))%Z.
Proof.
  induction s as [|x s IH]; simpl length; cbn [rfind]; [lia|].
  destruct (0 <=? rfind c s)%Z eqn:E; [lia|].
  destruct (bool_decide (x = c)); lia.
Qed.

Lemma rfind_last (c : char) (s : list char) (i : nat) :
  rfind c s = Z.of_nat i ->
  s !! i = Some c /\ c ∉ drop (S i) s.
Proof.
  revert i. induction s as [|x s IH]; intros i; cbn [rfind]; [lia|].
  destruct (0 <=? rfind c s)%Z eqn:E.
  - apply Z.leb_le in E. intros Hi. destruct i as [|i]; [lia|].
    apply (IH i). lia.
  - apply Z.leb_gt in E.
    destruct (bool_decide_reflect (x = c)) as [->|]; [|lia].
    intros Hi. assert (i = 0%nat) as -> by lia.
    split; [reflexivity|]. simpl. rewrite drop_0.
    clear IH Hi. induction s as [|y s IH]; [apply not_elem_of_nil|].
    cbn [rfind] in E.
    destruct (0 <=? rfind c s)%Z eqn:E'; [apply Z.leb_le in E'; lia|].
    destruct (bool_decide_reflect (y = c)) as [->|Hne]; [lia|].
    apply not_elem_of_cons. split; [congruence|].
    apply IH. apply Z.leb_gt in E'. lia.
Qed.

(** X25.  A vision message of at most 4000 characters is sent whole.  A
    longer one is sent in at most two parts: the first has more than 3200
    and at most 4000 characters; the second is all of the rest, from the
    character 4001 on or, when the first part ends before a line feed, from
    the character after this line feed, which then is the last line feed
    among the first 4000 characters; the second part is not sent when
    stripping leaves nothing of it. *)
Theorem replies_parts (vision_message : list char) :
  (Z.of_nat (length vision_message) <= 4000)%Z
  /\ replies newline is_space vision_message = [vision_message]
  \/ exists first_part second_part : list char,
       replies newline is_space vision_message
       = first_part :: (if truthy (strip is_space second_part)
                        then [second_part] else [])
       /\ (3200 < length first_part <= 4000)%nat
       /\ (vision_message = first_part ++ second_part
           /\ length first_part = 4000%nat
           \/ vision_message = first_part ++ newline :: second_part
              /\ newline ∉ take (3999 - length first_part) second_part).
Proof.
  unfold replies.
  destruct (Z.of_nat (length vision_message) >? 4000)%Z eqn:Hlong.
  2: { left. split; [lia | reflexivity]. }
  right. assert (Hlen : (4000 < length vision_message)%nat) by lia.
  set (first_part := take (Z.to_nat 4000) vision_message).
  assert (Hfirst : length first_part = 4000%nat).
  { unfold first_part. rewrite length_take. lia. }
  pose proof (rfind_bounds newline first_part) as Hbounds.
  destruct (inject_Z (rfind newline first_part) >? inject_Z 4000 * 0.8)%num
    eqn:Hnewline.
  - apply gtb_gt in Hnewline.
    assert (Hpos : (3200 < rfind newline first_part)%Z).
    { unfold Qlt in Hnewline. simpl in Hnewline. lia. }
    destruct (rfind_last newline first_part
                (Z.to_nat (rfind newline first_part))) as [Hat Hafter];
      [lia|].
    set (i := Z.to_nat (rfind newline first_part)) in *.
    replace (Z.to_nat (rfind newline first_part + 1)) with (S i) by lia.
    exists (take i vision_message), (drop (S i) vision_message).
    split; [reflexivity|].
    rewrite length_take.
    split; [lia|]. right. split.
    + unfold first_part in Hat. rewrite lookup_take_lt in Hat by lia.
      rewrite <- (take_drop_middle vision_message i newline) at 1
        by assumption.
      reflexivity.
    + replace (3999 - i `min` length vision_message)%nat
        with (4000 - S i)%nat by lia.
      unfold first_part in Hafter.
      rewrite take_drop_commute.
      replace (S i + (4000 - S i))%nat with (Z.to_nat 4000) by lia.
      assumption.
  - exists first_part, (drop (Z.to_nat 4000) vision_message).
    split; [reflexivity|]. split; [lia|]. left.
    split; [|assumption]. unfold first_part. symmetry. apply take_drop.
Qed.

End MessageParts.
